(** * Business-case projection engine: [src/calculations.ts]

    A shallow embedding of [getVariableCostPerUnit] and
    [buildScenarioResult], with the records of [src/types.ts], and of the
    code of [src/App.tsx] and [src/exports.ts] that consumes the result.

    Numbers.  The theorems are proved on an engine whose [number] is an
    exact rational ([Q]), where [null] is [None] and the loop counter, the
    [year] field and [paybackYear], which only hold [0, 1, 2, ...], are
    [nat].  Every division of the source has the literal 100 as divisor
    or is made under a test that the divisor is [> 0], so the value [Q]
    gives to a division by zero is never read.

    The program computes on IEEE doubles, which round, overflow and have
    NaN.  Module [F64] is the same engine on binary64 floats; it is run
    on concrete inputs to show where a figure of the program is not the
    figure exact arithmetic gives.  What rounding breaks is not claimed:
    the statements speak of the operations the code performs, in the order
    it performs them, and of comparisons, not of identities that need
    sums or products regrouped. *)

From Stdlib Require Import String Ascii DecimalString.
From Stdlib Require Import QArith Qround Qpower Qfield ZArith List Bool Lia Lqa.
From Stdlib Require Import Floats.
Import ListNotations.

Local Open Scope Q_scope.

(** ** Numeric primitives of the source language *)

Module Js.

(** [x > y], [x >= y] and [x < y] on numbers. *)
Definition gt (x y : Q) : bool := (Qnum y * QDen x <? Qnum x * QDen y)%Z.
Definition ge (x y : Q) : bool := Qle_bool y x.
Definition lt (x y : Q) : bool := gt y x.

(** [Math.pow(x, i)] for a loop counter [i]. *)
Definition Math_pow (x : Q) (i : nat) : Q := x ^ Z.of_nat i.

(** [a[i] ?? d]: an index outside the array reads [undefined], which
    [??] replaces by [d]. *)
Definition index_or {A : Type} (a : list A) (i : nat) (d : A) : A :=
  match nth_error a i with
  | Some v => v
  | None => d
  end.

(** The loop counter as a number. *)
Definition of_nat (i : nat) : Q := inject_Z (Z.of_nat i).

(** [for (; i < n; i++) body]: the passes from counter [i] on, at most
    [fuel] of them, threading the variables [st] the body assigns. *)
Fixpoint for_from {St : Type} (fuel i : nat) (n : Q)
    (body : nat -> St -> St) (st : St) : St :=
  match fuel with
  | O => st
  | S fuel' =>
      if lt (of_nat i) n
      then for_from fuel' (S i) n body (body i st)
      else st
  end.

(** The number of naturals below [n]: the passes the loop below makes. *)
Definition trip_count (n : Q) : nat := Z.to_nat (Qceiling n).

(** [for (let i = 0; i < n; i++) body].  The fuel is never what stops
    the loop: see [JsFacts.for_loop_exit]. *)
Definition for_loop {St : Type} (n : Q) (body : nat -> St -> St)
    (init : St) : St :=
  for_from (trip_count n) 0 n body init.

End Js.

(** ** [src/types.ts] *)

Module Types.

Inductive ProductType : Type :=
| software
| hardware.

Record GeneralInputs : Type := {
  productName : string;
  productType : ProductType;
  currency : string;
  years : Q
}.

Record CostInputs : Type := {
  devCapex : Q;
  launchMarketingCapex : Q;
  infraCostPerUser : Q;
  licenseCostPerUser : Q;
  manufacturingCostPerUnit : Q;
  shippingCostPerUnit : Q;
  packagingCostPerUnit : Q;
  supportCostPerUnit : Q;
  annualFixedOpex : Q
}.

Record MarketInputs : Type := {
  tamUnitsPerYear : list Q;
  samPct : Q;
  somPct : Q;
  adoptionPctPerYear : list Q
}.

Record RevenueInputs : Type := {
  basePricePerUnit : Q;
  annualPriceGrowthPct : Q
}.

Record Scenario : Type := {
  id : string;
  name : string;
  adoptionMultiplier : Q;
  priceMultiplier : Q
}.

Record YearlyResult : Type := {
  year : nat;
  pricePerUnit : Q;
  units : Q;
  revenue : Q;
  variableCost : Q;
  grossProfit : Q;
  grossMarginPct : Q;
  fixedCost : Q;
  netProfit : Q;
  netMarginPct : Q;
  cumulativeCashFlow : Q
}.

Record ScenarioResult : Type := {
  scenario : Scenario;
  yearly : list YearlyResult;
  totalRevenue : Q;
  totalNetProfit : Q;
  paybackYear : option nat;
  breakEvenUnits : option Q
}.

End Types.
Import Types.

(** ** [src/calculations.ts] *)

Definition getVariableCostPerUnit (pt : ProductType) (cost : CostInputs) : Q :=
  match pt with
  | software =>
      infraCostPerUser cost + licenseCostPerUser cost + supportCostPerUnit cost
  | hardware =>
      manufacturingCostPerUnit cost + shippingCostPerUnit cost
      + packagingCostPerUnit cost + supportCostPerUnit cost
  end.

(** The variables the year loop assigns: the running [cumulativeCashFlow],
    the [paybackYear] latch and the [yearly] array being filled. *)
Record LoopVars : Type := {
  v_cumulativeCashFlow : Q;
  v_paybackYear : option nat;
  v_yearly : list YearlyResult
}.

Section Engine.

Variable general : GeneralInputs.
Variable cost : CostInputs.
Variable market : MarketInputs.
Variable revenue : RevenueInputs.
Variable scenario : Scenario.

Definition upfrontCapex : Q := devCapex cost + launchMarketingCapex cost.

Definition unitVariableCost : Q :=
  getVariableCostPerUnit (productType general) cost.

(** One pass through the body of the [for] loop (source lines 44-87). *)
Definition loop_body (i : nat) (st : LoopVars) : LoopVars :=
  let yearIndex := i in
  let basePrice :=
    basePricePerUnit revenue
    * Js.Math_pow (1 + annualPriceGrowthPct revenue / 100) i in
  let pricePerUnit := basePrice * priceMultiplier scenario in
  let tamUnits := Js.index_or (tamUnitsPerYear market) i 0 in
  let samUnits := tamUnits * (samPct market / 100) in
  let somUnits := samUnits * (somPct market / 100) in
  let adoptionPct := Js.index_or (adoptionPctPerYear market) i 0 / 100 in
  let baseUnits := somUnits * adoptionPct in
  let units := baseUnits * adoptionMultiplier scenario in
  let revenueYear := pricePerUnit * units in
  let variableCost := unitVariableCost * units in
  let grossProfit := revenueYear - variableCost in
  let fixedCost := annualFixedOpex cost in
  let netProfit := grossProfit - fixedCost in
  let cumulativeCashFlow := v_cumulativeCashFlow st + netProfit in
  let paybackYear :=
    match v_paybackYear st with
    | None =>
        if Js.ge cumulativeCashFlow 0 then Some (yearIndex + 1)%nat else None
    | Some p => Some p
    end in
  let grossMarginPct :=
    if Js.gt revenueYear 0 then (grossProfit / revenueYear) * 100 else 0 in
  let netMarginPct :=
    if Js.gt revenueYear 0 then (netProfit / revenueYear) * 100 else 0 in
  {| v_cumulativeCashFlow := cumulativeCashFlow;
     v_paybackYear := paybackYear;
     v_yearly :=
       v_yearly st ++
       [ {| year := (yearIndex + 1)%nat;
            pricePerUnit := pricePerUnit;
            units := units;
            Types.revenue := revenueYear;
            variableCost := variableCost;
            grossProfit := grossProfit;
            grossMarginPct := grossMarginPct;
            fixedCost := fixedCost;
            netProfit := netProfit;
            netMarginPct := netMarginPct;
            cumulativeCashFlow := cumulativeCashFlow |} ] |}.

(** The loop variables as declared before the loop (lines 35-39). *)
Definition loop_init : LoopVars :=
  {| v_cumulativeCashFlow := - upfrontCapex;
     v_paybackYear := None;
     v_yearly := [] |}.

Definition buildScenarioResult : ScenarioResult :=
  let years := years general in
  let final := Js.for_loop years loop_body loop_init in
  let yearly := v_yearly final in
  let totalRevenue := fold_left (fun s y => s + Types.revenue y) yearly 0 in
  let totalNetProfit := fold_left (fun s y => s + Types.netProfit y) yearly 0 in
  let contributionMargin := basePricePerUnit revenue - unitVariableCost in
  let breakEvenUnits :=
    if Js.gt contributionMargin 0
    then Some (upfrontCapex / contributionMargin)
    else None in
  {| Types.scenario := scenario;
     yearly := yearly;
     totalRevenue := totalRevenue;
     totalNetProfit := totalNetProfit;
     paybackYear := v_paybackYear final;
     breakEvenUnits := breakEvenUnits |}.

End Engine.

(** The loop variables after the first [n] passes of the year loop. *)
Definition loop_prefix (general : GeneralInputs) (cost : CostInputs)
    (market : MarketInputs) (revenue : RevenueInputs) (scenario : Scenario)
    (n : nat) : LoopVars :=
  fold_left (fun st i => loop_body general cost market revenue scenario i st)
    (seq 0 n) (loop_init cost).

(** The baseline of a scenario: the same scenario with both multipliers 1.0. *)
Definition baseline_of (scenario : Scenario) : Scenario :=
  {| id := id scenario;
     name := name scenario;
     adoptionMultiplier := 1;
     priceMultiplier := 1 |}.

(** Two cost records that differ at most in the hardware-only fields
    ([manufacturingCostPerUnit], [shippingCostPerUnit],
    [packagingCostPerUnit]). *)
Definition differ_only_in_hardware_costs (c c' : CostInputs) : Prop :=
  devCapex c = devCapex c' /\
  launchMarketingCapex c = launchMarketingCapex c' /\
  infraCostPerUser c = infraCostPerUser c' /\
  licenseCostPerUser c = licenseCostPerUser c' /\
  supportCostPerUnit c = supportCostPerUnit c' /\
  annualFixedOpex c = annualFixedOpex c'.

(** Two cost records that differ at most in the software-only fields
    ([infraCostPerUser], [licenseCostPerUser]). *)
Definition differ_only_in_software_costs (c c' : CostInputs) : Prop :=
  devCapex c = devCapex c' /\
  launchMarketingCapex c = launchMarketingCapex c' /\
  manufacturingCostPerUnit c = manufacturingCostPerUnit c' /\
  shippingCostPerUnit c = shippingCostPerUnit c' /\
  packagingCostPerUnit c = packagingCostPerUnit c' /\
  supportCostPerUnit c = supportCostPerUnit c' /\
  annualFixedOpex c = annualFixedOpex c'.

(** What pass [i] of the loop body stores in the row it pushes, read off
    lines 45-87, when the running cumulative cash flow was [cum] on
    entry to the pass. *)
Definition row_spec (general : GeneralInputs) (cost : CostInputs)
    (market : MarketInputs) (revenue : RevenueInputs) (scenario : Scenario)
    (i : nat) (cum : Q) (y : YearlyResult) : Prop :=
  year y = (i + 1)%nat /\
  pricePerUnit y
  = basePricePerUnit revenue
    * Js.Math_pow (1 + annualPriceGrowthPct revenue / 100) i
    * priceMultiplier scenario /\
  units y
  = Js.index_or (tamUnitsPerYear market) i 0 * (samPct market / 100)
    * (somPct market / 100)
    * (Js.index_or (adoptionPctPerYear market) i 0 / 100)
    * adoptionMultiplier scenario /\
  Types.revenue y = pricePerUnit y * units y /\
  variableCost y = unitVariableCost general cost * units y /\
  grossProfit y = Types.revenue y - variableCost y /\
  grossMarginPct y
  = (if Js.gt (Types.revenue y) 0
     then grossProfit y / Types.revenue y * 100 else 0) /\
  fixedCost y = annualFixedOpex cost /\
  netProfit y = grossProfit y - fixedCost y /\
  netMarginPct y
  = (if Js.gt (Types.revenue y) 0
     then netProfit y / Types.revenue y * 100 else 0) /\
  cumulativeCashFlow y = cum + netProfit y.

(** ** Sample inputs *)

(** The worked example of the specification: a software product over two
    years, upfront cost 1000, unit cost 1, price 10, 500 units a year. *)
Definition ex_general : GeneralInputs :=
  {| productName := "New Product"; productType := software;
     currency := "EUR"; years := 2 |}.

Definition ex_cost : CostInputs :=
  {| devCapex := 1000; launchMarketingCapex := 0;
     infraCostPerUser := 1; licenseCostPerUser := 0;
     manufacturingCostPerUnit := 0; shippingCostPerUnit := 0;
     packagingCostPerUnit := 0; supportCostPerUnit := 0;
     annualFixedOpex := 0 |}.

Definition ex_market : MarketInputs :=
  {| tamUnitsPerYear := [1000; 1000]; samPct := 100; somPct := 100;
     adoptionPctPerYear := [50; 50] |}.

Definition ex_revenue : RevenueInputs :=
  {| basePricePerUnit := 10; annualPriceGrowthPct := 0 |}.

Definition ex_scenario : Scenario :=
  {| id := "base"; name := "Base";
     adoptionMultiplier := 1; priceMultiplier := 1 |}.

(** The "aggressive" scenario of the application's defaults
    (adoption 1.4, price 1.05). *)
Definition ex_aggressive : Scenario :=
  {| id := "aggressive"; name := "Aggressive";
     adoptionMultiplier := 7 # 5; priceMultiplier := 21 # 20 |}.

(** The same product as hardware, and the same costs with the hardware
    fields filled in. *)
Definition ex_general_hardware : GeneralInputs :=
  {| productName := "New Product"; productType := hardware;
     currency := "EUR"; years := 2 |}.

Definition ex_cost_hardware : CostInputs :=
  {| devCapex := 1000; launchMarketingCapex := 0;
     infraCostPerUser := 1; licenseCostPerUser := 0;
     manufacturingCostPerUnit := 40; shippingCostPerUnit := 5;
     packagingCostPerUnit := 3; supportCostPerUnit := 0;
     annualFixedOpex := 0 |}.

Definition ex_cost_software : CostInputs :=
  {| devCapex := 1000; launchMarketingCapex := 0;
     infraCostPerUser := 3 # 2; licenseCostPerUser := 1 # 2;
     manufacturingCostPerUnit := 40; shippingCostPerUnit := 5;
     packagingCostPerUnit := 3; supportCostPerUnit := 0;
     annualFixedOpex := 0 |}.

(** A price below the unit cost. *)
Definition ex_revenue_cheap : RevenueInputs :=
  {| basePricePerUnit := 1; annualPriceGrowthPct := 0 |}.

(** The example with a horizon of three years: the per-year sequences
    are one entry short. *)
Definition ex_general_3 : GeneralInputs :=
  {| productName := "New Product"; productType := software;
     currency := "EUR"; years := 3 |}.

(** A horizon of two and a half years, an upfront cost of 10000 and three
    years of market data: the loop test [i < 2.5] holds for
    [i = 0, 1, 2]. *)
Definition ex_general_half : GeneralInputs :=
  {| productName := "New Product"; productType := software;
     currency := "EUR"; years := 5 # 2 |}.

Definition ex_cost_heavy : CostInputs :=
  {| devCapex := 10000; launchMarketingCapex := 0;
     infraCostPerUser := 1; licenseCostPerUser := 0;
     manufacturingCostPerUnit := 0; shippingCostPerUnit := 0;
     packagingCostPerUnit := 0; supportCostPerUnit := 0;
     annualFixedOpex := 0 |}.

Definition ex_market_3 : MarketInputs :=
  {| tamUnitsPerYear := [1000; 1000; 1000]; samPct := 100; somPct := 100;
     adoptionPctPerYear := [50; 50; 50] |}.

(** A horizon of 0 with nothing to pay upfront: the cumulative cash flow
    is already 0 before year 1. *)
Definition ex_general_0 : GeneralInputs :=
  {| productName := "New Product"; productType := software;
     currency := "EUR"; years := 0 |}.

Definition ex_cost_free : CostInputs :=
  {| devCapex := 0; launchMarketingCapex := 0;
     infraCostPerUser := 1; licenseCostPerUser := 0;
     manufacturingCostPerUnit := 0; shippingCostPerUnit := 0;
     packagingCostPerUnit := 0; supportCostPerUnit := 0;
     annualFixedOpex := 0 |}.

(** A run whose cumulative cash flow is 30, then -30, then 910: upfront
    cost 10, fixed cost 60 a year, price 10, no unit cost, and 10, 0 and
    100 units sold. *)
Definition ex_cost_dip : CostInputs :=
  {| devCapex := 10; launchMarketingCapex := 0;
     infraCostPerUser := 0; licenseCostPerUser := 0;
     manufacturingCostPerUnit := 0; shippingCostPerUnit := 0;
     packagingCostPerUnit := 0; supportCostPerUnit := 0;
     annualFixedOpex := 60 |}.

Definition ex_market_dip : MarketInputs :=
  {| tamUnitsPerYear := [10; 0; 100]; samPct := 100; somPct := 100;
     adoptionPctPerYear := [100; 100; 100] |}.

(** The sum of a figure over the rows of [yearly], as [reduce] forms it. *)
Definition sum_of (f : YearlyResult -> Q) (l : list YearlyResult) : Q :=
  fold_left (fun acc y => acc + f y) l 0.

(** ** [src/types.ts], lines 50-53 *)

Record CompetitorInputs : Type := {
  competitorName : string;
  competitorPrice : Q
}.

(** ** More primitives of the source language *)

Module JsText.

(** [String(n)] for a counter value [n]: its decimal digits. *)
Definition String_of_nat (n : nat) : string :=
  NilEmpty.string_of_uint (Nat.to_uint n).

(** Truthiness of a number: 0 is falsy and every other rational is
    truthy.  (A double has one more falsy value, NaN, which no rational
    stands for.) *)
Definition truthy (x : Q) : bool := negb (Qeq_bool x 0).

(** [a.join(sep)] on an array of strings. *)
Definition join (sep : string) (a : list string) : string :=
  String.concat sep a.

(** The one-character string of a line feed. *)
Definition newline : string := String (ascii_of_nat 10) EmptyString.

End JsText.

(** ** [src/App.tsx]: what the component computes from the engine *)

Module App.

(** Lines 28-70: the constants and default inputs. *)
Definition YEARS : Q := 5.

Definition defaultGeneral : GeneralInputs :=
  {| productName := "New Product"; productType := software;
     currency := "€"; years := YEARS |}.

Definition defaultCost : CostInputs :=
  {| devCapex := 200000; launchMarketingCapex := 50000;
     infraCostPerUser := 3 # 2; licenseCostPerUser := 1 # 2;
     manufacturingCostPerUnit := 40; shippingCostPerUnit := 5;
     packagingCostPerUnit := 3; supportCostPerUnit := 2;
     annualFixedOpex := 150000 |}.

Definition defaultMarket : MarketInputs :=
  {| tamUnitsPerYear := [100000; 120000; 150000; 180000; 200000];
     samPct := 40; somPct := 30;
     adoptionPctPerYear := [1; 3; 5; 7; 10] |}.

Definition defaultRevenue : RevenueInputs :=
  {| basePricePerUnit := 99; annualPriceGrowthPct := 3 |}.

Definition defaultScenarios : list Scenario :=
  [ {| id := "conservative"; name := "Conservative";
       adoptionMultiplier := 3 # 5; priceMultiplier := 19 # 20 |};
    {| id := "base"; name := "Base";
       adoptionMultiplier := 1; priceMultiplier := 1 |};
    {| id := "aggressive"; name := "Aggressive";
       adoptionMultiplier := 7 # 5; priceMultiplier := 21 # 20 |} ].

Definition defaultCompetitor : CompetitorInputs :=
  {| competitorName := "Main Competitor"; competitorPrice := 109 |}.

(** Lines 99-100: [scenarios.find(s => s.id === selectedScenarioId) ??
    scenarios[1]].  [find] gives [undefined] when no scenario has the id,
    and so does [scenarios[1]] on a list shorter than two. *)
Definition selectedScenario (scenarios : list Scenario)
    (selectedScenarioId : string) : option Scenario :=
  match find (fun s => String.eqb (id s) selectedScenarioId) scenarios with
  | Some s => Some s
  | None => nth_error scenarios 1
  end.

(** Lines 105-111: one engine run per scenario. *)
Definition scenarioResults (general : GeneralInputs) (cost : CostInputs)
    (market : MarketInputs) (revenue : RevenueInputs)
    (scenarios : list Scenario) : list ScenarioResult :=
  map (fun s => buildScenarioResult general cost market revenue s) scenarios.

(** Lines 113-115: [scenarioResults.find(r => r.scenario.id ===
    selectedScenario.id)], before the non-null assertion. *)
Definition currentResult (scenarioResults : list ScenarioResult)
    (selectedScenario : Scenario) : option ScenarioResult :=
  find (fun r => String.eqb (id (Types.scenario r)) (id selectedScenario))
    scenarioResults.

(** Lines 141-146. *)
Definition competitorDelta (revenue : RevenueInputs)
    (competitor : CompetitorInputs) : option Q :=
  if Js.gt (competitorPrice competitor) 0
  then Some ((basePricePerUnit revenue - competitorPrice competitor)
             / competitorPrice competitor * 100)
  else None.

(** Line 397: the sign shown before the competitor delta. *)
Definition competitorSign (competitorDelta : Q) : string :=
  if Js.ge competitorDelta 0 then "+"%string else ""%string.

(** Lines 437-442: the text of the "Payback year" tile.  The test is the
    truthiness of [paybackYear]: [null] and 0 are falsy. *)
Definition paybackTile (currentResult : ScenarioResult) : string :=
  match paybackYear currentResult with
  | Some p =>
      if JsText.truthy (Js.of_nat p)
      then ("Year " ++ JsText.String_of_nat p)%string
      else "Not reached"%string
  | None => "Not reached"%string
  end.

(** Lines 445-450: the text of the "Break-even units" tile; [toFixed] is
    the number formatter [x.toFixed(digits)]. *)
Definition breakEvenTile (toFixed : Q -> nat -> string)
    (currentResult : ScenarioResult) : string :=
  match breakEvenUnits currentResult with
  | Some b => if JsText.truthy b then toFixed b 0%nat else "N/A"%string
  | None => "N/A"%string
  end.

End App.

(** ** [src/exports.ts]: the CSV export and the PDF summary line *)

Module Exports.

(** An object literal with number values: its keys in insertion order. *)
Definition Obj : Type := list (string * Q).

(** [Object.keys(o)]. *)
Definition Object_keys (o : Obj) : list string := map fst o.

(** [o[k]]: [undefined] when [o] has no key [k]. *)
Definition get (o : Obj) (k : string) : option Q :=
  option_map snd (find (fun kv => String.eqb (fst kv) k) o).

(** Lines 7-21. *)
Definition buildRows (result : ScenarioResult) (currency : string)
    : list Obj :=
  map (fun y =>
         [ ("Year"%string, Js.of_nat (year y));
           ("Price per unit"%string, pricePerUnit y);
           ("Units"%string, units y);
           ("Revenue"%string, Types.revenue y);
           ("Variable cost"%string, variableCost y);
           ("Gross profit"%string, grossProfit y);
           ("Gross margin %"%string, grossMarginPct y);
           ("Fixed cost"%string, fixedCost y);
           ("Net profit"%string, netProfit y);
           ("Net margin %"%string, netMarginPct y);
           ("Cumulative cash flow"%string, cumulativeCashFlow y) ])
    (yearly result).

(** What [saveAs] is handed: the text of the blob and the file name. *)
Record SavedFile : Type := {
  file_text : string;
  file_name : string
}.

Section Csv.

(** [String(x)] for a number [x]. *)
Variable String_of_number : Q -> string.

(** [String(v)] for a cell: a missing key reads [undefined]. *)
Definition String_of_cell (v : option Q) : string :=
  match v with
  | Some x => String_of_number x
  | None => "undefined"%string
  end.

(** Lines 24-30: the lines of the CSV text. *)
Definition csvLines (result : ScenarioResult) (currency : string)
    : list string :=
  let rows := buildRows result currency in
  let header := Object_keys (Js.index_or rows 0 []) in
  JsText.join ","%string header
  :: map (fun r =>
            JsText.join ","%string (map (fun h => String_of_cell (get r h)) header))
       rows.

(** Lines 23-36. *)
Definition exportToCSV (result : ScenarioResult) (currency : string)
    : SavedFile :=
  {| file_text := JsText.join JsText.newline (csvLines result currency);
     file_name := (name (Types.scenario result) ++ "_scenario.csv")%string |}.

End Csv.

(** Lines 64-70: the payback line of the PDF summary. *)
Definition pdfPaybackLine (result : ScenarioResult) : string :=
  ("Payback year: "
   ++ match paybackYear result with
      | Some p =>
          if JsText.truthy (Js.of_nat p)
          then "Year " ++ JsText.String_of_nat p
          else "Not reached"
      | None => "Not reached"
      end)%string.

End Exports.

(** The eleven figures of a row, in the order of the object literal of
    [buildRows]. *)
Definition csv_figures (y : YearlyResult) : list Q :=
  [ Js.of_nat (year y); pricePerUnit y; units y; Types.revenue y;
    variableCost y; grossProfit y; grossMarginPct y; fixedCost y;
    netProfit y; netMarginPct y; cumulativeCashFlow y ].

(** A market like the application's default with another TAM for year 5. *)
Definition ex_market_late : MarketInputs :=
  {| tamUnitsPerYear := [100000; 120000; 150000; 180000; 999999];
     samPct := 40; somPct := 30;
     adoptionPctPerYear := [1; 3; 5; 7; 10] |}.

(** A stand-in for [String(x)] in runs of the export: the integer part. *)
Definition ex_String_of_number (x : Q) : string :=
  NilEmpty.string_of_int (Z.to_int (Qfloor x)).

(** ** The engine on IEEE doubles

    The same two functions of [src/calculations.ts] with [number] read as
    a binary64 float, with its rounding, infinities and NaN.  It is run on
    concrete inputs, to show where a figure of the program differs from
    the figure exact arithmetic gives.  [Math.pow] is a parameter: its
    rounding is left to the implementation. *)

Set Warnings "-inexact-float".

Module F64.

Local Open Scope float_scope.

Record GeneralInputs : Type := {
  productName : string;
  productType : ProductType;
  currency : string;
  years : float
}.

Record CostInputs : Type := {
  devCapex : float;
  launchMarketingCapex : float;
  infraCostPerUser : float;
  licenseCostPerUser : float;
  manufacturingCostPerUnit : float;
  shippingCostPerUnit : float;
  packagingCostPerUnit : float;
  supportCostPerUnit : float;
  annualFixedOpex : float
}.

Record MarketInputs : Type := {
  tamUnitsPerYear : list float;
  samPct : float;
  somPct : float;
  adoptionPctPerYear : list float
}.

Record RevenueInputs : Type := {
  basePricePerUnit : float;
  annualPriceGrowthPct : float
}.

Record Scenario : Type := {
  id : string;
  name : string;
  adoptionMultiplier : float;
  priceMultiplier : float
}.

Record YearlyResult : Type := {
  year : float;
  pricePerUnit : float;
  units : float;
  revenue : float;
  variableCost : float;
  grossProfit : float;
  grossMarginPct : float;
  fixedCost : float;
  netProfit : float;
  netMarginPct : float;
  cumulativeCashFlow : float
}.

Record ScenarioResult : Type := {
  scenario : Scenario;
  yearly : list YearlyResult;
  totalRevenue : float;
  totalNetProfit : float;
  paybackYear : option float;
  breakEvenUnits : option float
}.

Definition getVariableCostPerUnit (pt : ProductType) (cost : CostInputs)
    : float :=
  match pt with
  | software =>
      infraCostPerUser cost + licenseCostPerUser cost + supportCostPerUnit cost
  | hardware =>
      manufacturingCostPerUnit cost + shippingCostPerUnit cost
      + packagingCostPerUnit cost + supportCostPerUnit cost
  end.

Record LoopVars : Type := {
  v_cumulativeCashFlow : float;
  v_paybackYear : option float;
  v_yearly : list YearlyResult
}.

(** [for (; i < n; i++) body]: the counter [i] is a double; [k] counts
    the passes made and is the array index [i] stands for.  [None]: the
    fuel ran out before the test failed. *)
Fixpoint for_from {St : Type} (fuel k : nat) (i n : float)
    (body : nat -> float -> St -> St) (st : St) : option St :=
  if i <? n
  then match fuel with
       | O => None
       | S fuel' => for_from fuel' (S k) (i + 1) n body (body k i st)
       end
  else Some st.

Section Engine.

(** [Math.pow(x, i)] for the counter value of pass [k]. *)
Variable Math_pow : float -> nat -> float.

Variable general : GeneralInputs.
Variable cost : CostInputs.
Variable market : MarketInputs.
Variable revenue : RevenueInputs.
Variable scenario : Scenario.

Definition upfrontCapex : float := devCapex cost + launchMarketingCapex cost.

Definition unitVariableCost : float :=
  getVariableCostPerUnit (productType general) cost.

(** Lines 44-87, as in [loop_body] above. *)
Definition loop_body (k : nat) (i : float) (st : LoopVars) : LoopVars :=
  let yearIndex := i in
  let basePrice :=
    basePricePerUnit revenue
    * Math_pow (1 + annualPriceGrowthPct revenue / 100) k in
  let pricePerUnit := basePrice * priceMultiplier scenario in
  let tamUnits := Js.index_or (tamUnitsPerYear market) k 0 in
  let samUnits := tamUnits * (samPct market / 100) in
  let somUnits := samUnits * (somPct market / 100) in
  let adoptionPct := Js.index_or (adoptionPctPerYear market) k 0 / 100 in
  let baseUnits := somUnits * adoptionPct in
  let units := baseUnits * adoptionMultiplier scenario in
  let revenueYear := pricePerUnit * units in
  let variableCost := unitVariableCost * units in
  let grossProfit := revenueYear - variableCost in
  let fixedCost := annualFixedOpex cost in
  let netProfit := grossProfit - fixedCost in
  let cumulativeCashFlow := v_cumulativeCashFlow st + netProfit in
  let paybackYear :=
    match v_paybackYear st with
    | None => if 0 <=? cumulativeCashFlow then Some (yearIndex + 1) else None
    | Some p => Some p
    end in
  let grossMarginPct :=
    if 0 <? revenueYear then (grossProfit / revenueYear) * 100 else 0 in
  let netMarginPct :=
    if 0 <? revenueYear then (netProfit / revenueYear) * 100 else 0 in
  {| v_cumulativeCashFlow := cumulativeCashFlow;
     v_paybackYear := paybackYear;
     v_yearly :=
       v_yearly st ++
       [ {| year := yearIndex + 1;
            pricePerUnit := pricePerUnit;
            units := units;
            F64.revenue := revenueYear;
            variableCost := variableCost;
            grossProfit := grossProfit;
            grossMarginPct := grossMarginPct;
            fixedCost := fixedCost;
            netProfit := netProfit;
            netMarginPct := netMarginPct;
            cumulativeCashFlow := cumulativeCashFlow |} ] |}.

Definition loop_init : LoopVars :=
  {| v_cumulativeCashFlow := - upfrontCapex;
     v_paybackYear := None;
     v_yearly := [] |}.

(** [buildScenarioResult]; [None] when [fuel] passes do not finish the
    loop. *)
Definition buildScenarioResult (fuel : nat) : option ScenarioResult :=
  let years := years general in
  match for_from fuel 0 0 years loop_body loop_init with
  | None => None
  | Some final =>
      let yearly := v_yearly final in
      let totalRevenue := fold_left (fun s y => s + F64.revenue y) yearly 0 in
      let totalNetProfit :=
        fold_left (fun s y => s + F64.netProfit y) yearly 0 in
      let contributionMargin := basePricePerUnit revenue - unitVariableCost in
      let breakEvenUnits :=
        if 0 <? contributionMargin
        then Some (upfrontCapex / contributionMargin)
        else None in
      Some {| F64.scenario := scenario;
              yearly := yearly;
              totalRevenue := totalRevenue;
              totalNetProfit := totalNetProfit;
              paybackYear := v_paybackYear final;
              breakEvenUnits := breakEvenUnits |}
  end.

End Engine.

(** A [Math.pow] for concrete runs, by repeated multiplication.  The runs
    below have a growth rate of 0, where it returns [1] as every
    [Math.pow] does for base 1. *)
Definition pow_by_products (x : float) (k : nat) : float :=
  Nat.iter k (fun p => p * x) 1.

(** The worked example of the specification, on doubles. *)
Definition ex_general : GeneralInputs :=
  {| productName := "New Product"; productType := software;
     currency := "EUR"; years := 2 |}.

Definition ex_cost : CostInputs :=
  {| devCapex := 1000; launchMarketingCapex := 0;
     infraCostPerUser := 1; licenseCostPerUser := 0;
     manufacturingCostPerUnit := 0; shippingCostPerUnit := 0;
     packagingCostPerUnit := 0; supportCostPerUnit := 0;
     annualFixedOpex := 0 |}.

Definition ex_market : MarketInputs :=
  {| tamUnitsPerYear := [1000; 1000]; samPct := 100; somPct := 100;
     adoptionPctPerYear := [50; 50] |}.

Definition ex_revenue : RevenueInputs :=
  {| basePricePerUnit := 10; annualPriceGrowthPct := 0 |}.

Definition ex_scenario : Scenario :=
  {| id := "base"; name := "Base";
     adoptionMultiplier := 1; priceMultiplier := 1 |}.

(** The "conservative" scenario of the application's defaults. *)
Definition ex_conservative : Scenario :=
  {| id := "conservative"; name := "Conservative";
     adoptionMultiplier := 0.6; priceMultiplier := 0.95 |}.

(** The worked example with an upfront cost and a fixed cost of 0.2. *)
Definition ex_cost_small : CostInputs :=
  {| devCapex := 0.2; launchMarketingCapex := 0;
     infraCostPerUser := 1; licenseCostPerUser := 0;
     manufacturingCostPerUnit := 0; shippingCostPerUnit := 0;
     packagingCostPerUnit := 0; supportCostPerUnit := 0;
     annualFixedOpex := 0.2 |}.

(** Upfront costs that overflow when added, no unit cost, a price of
    1e308, nothing sold in year 1 and 1e308 units in year 2. *)
Definition ex_cost_huge : CostInputs :=
  {| devCapex := 1e308; launchMarketingCapex := 1e308;
     infraCostPerUser := 0; licenseCostPerUser := 0;
     manufacturingCostPerUnit := 0; shippingCostPerUnit := 0;
     packagingCostPerUnit := 0; supportCostPerUnit := 0;
     annualFixedOpex := 0 |}.

Definition ex_market_huge : MarketInputs :=
  {| tamUnitsPerYear := [0; 1e308]; samPct := 100; somPct := 100;
     adoptionPctPerYear := [100; 100] |}.

Definition ex_revenue_huge : RevenueInputs :=
  {| basePricePerUnit := 1e308; annualPriceGrowthPct := 0 |}.

(** The worked example over three years (the per-year sequences are one
    entry short) with a fixed cost of 100, a price of 1e308 and a price
    multiplier of 10. *)
Definition ex_general_3 : GeneralInputs :=
  {| productName := "New Product"; productType := software;
     currency := "EUR"; years := 3 |}.

Definition ex_cost_opex : CostInputs :=
  {| devCapex := 1000; launchMarketingCapex := 0;
     infraCostPerUser := 1; licenseCostPerUser := 0;
     manufacturingCostPerUnit := 0; shippingCostPerUnit := 0;
     packagingCostPerUnit := 0; supportCostPerUnit := 0;
     annualFixedOpex := 100 |}.

Definition ex_scenario_x10 : Scenario :=
  {| id := "x10"; name := "Price x10";
     adoptionMultiplier := 1; priceMultiplier := 10 |}.

(** The baseline of a scenario: the same scenario with both multipliers
    1.0. *)
Definition baseline_of (scenario : Scenario) : Scenario :=
  {| id := id scenario;
     name := name scenario;
     adoptionMultiplier := 1;
     priceMultiplier := 1 |}.

(** A concrete run, with fuel for ten passes. *)
Definition run (general : GeneralInputs) (cost : CostInputs)
    (market : MarketInputs) (revenue : RevenueInputs) (scenario : Scenario)
    : option ScenarioResult :=
  buildScenarioResult pow_by_products general cost market revenue scenario 10.

(** One figure of every row of a run, read with [f]; [[]] when the run
    did not finish. *)
Definition column (f : YearlyResult -> float)
    (res : option ScenarioResult) : list float :=
  match res with
  | Some r => map f (yearly r)
  | None => []
  end.

End F64.

(** ** Proof steps for concrete runs *)

(** Closes a goal about concrete rationals by evaluation. *)
Ltac by_evaluation :=
  vm_compute; first [reflexivity | discriminate | intro; discriminate].

(** Reads row [k] of a concrete run into the context as [y] with [E]. *)
Ltac read_row R k y E :=
  destruct (nth_error (yearly R) k) as [y|] eqn:E;
  [| vm_compute in E; discriminate E].

(** ** Facts about the numeric primitives *)

Module JsFacts.

Lemma gt_iff (x y : Q) : Js.gt x y = true <-> y < x.
Proof. unfold Js.gt, Qlt. apply Z.ltb_lt. Qed.

Lemma gt_false_iff (x y : Q) : Js.gt x y = false <-> x <= y.
Proof. unfold Js.gt, Qle. apply Z.ltb_ge. Qed.

Lemma ge_iff (x y : Q) : Js.ge x y = true <-> y <= x.
Proof. unfold Js.ge. apply Qle_bool_iff. Qed.

Lemma ge_false_iff (x y : Q) : Js.ge x y = false <-> x < y.
Proof.
  split; intro H.
  - apply Qnot_le_lt. intro Hle. apply ge_iff in Hle. congruence.
  - destruct (Js.ge x y) eqn:E; [|reflexivity].
    apply ge_iff in E. exfalso. apply (Qlt_not_le _ _ H E).
Qed.

#[export] Instance gt_Proper : Proper (Qeq ==> Qeq ==> eq) Js.gt.
Proof.
  intros x x' Hx y y' Hy.
  destruct (Js.gt x y) eqn:E; symmetry.
  - apply gt_iff. rewrite <- Hx, <- Hy. now apply gt_iff.
  - apply gt_false_iff. rewrite <- Hx, <- Hy. now apply gt_false_iff.
Qed.

#[export] Instance ge_Proper : Proper (Qeq ==> Qeq ==> eq) Js.ge.
Proof.
  intros x x' Hx y y' Hy.
  destruct (Js.ge x y) eqn:E; symmetry.
  - apply ge_iff. rewrite <- Hx, <- Hy. now apply ge_iff.
  - apply ge_false_iff. rewrite <- Hx, <- Hy. now apply ge_false_iff.
Qed.

Lemma index_or_beyond {A : Type} (a : list A) (i : nat) (d : A) :
  (length a <= i)%nat -> Js.index_or a i d = d.
Proof.
  intro H. unfold Js.index_or.
  now rewrite (proj2 (nth_error_None a i) H).
Qed.

Lemma index_or_within {A : Type} (a : list A) (i : nat) (d : A) :
  (i < length a)%nat -> Js.index_or a i d = nth i a d.
Proof.
  intro H. unfold Js.index_or.
  destruct (nth_error a i) eqn:E.
  - symmetry. now apply nth_error_nth.
  - apply nth_error_None in E. lia.
Qed.

(** The loop test [i < n] holds exactly on the passes that are run. *)
Lemma trip_count_spec (n : Q) (i : nat) :
  (i < Js.trip_count n)%nat <-> Js.of_nat i < n.
Proof.
  unfold Js.trip_count, Js.of_nat. split; intro H.
  - apply Qle_lt_trans with (y := inject_Z (Qceiling n - 1)).
    + rewrite <- Zle_Qle. lia.
    + apply Qceiling_lt.
  - assert (Hz : (Z.of_nat i < Qceiling n)%Z).
    { rewrite Zlt_Qlt. eapply Qlt_le_trans; [exact H | apply Qle_ceiling]. }
    lia.
Qed.

Lemma trip_count_of_Z (z : Z) (n : Q) :
  n == inject_Z z -> Js.trip_count n = Z.to_nat z.
Proof.
  intro H. unfold Js.trip_count. now rewrite H, Qceiling_Z.
Qed.

Lemma trip_count_nonpos (n : Q) : n <= 0 -> Js.trip_count n = 0%nat.
Proof.
  intro H. unfold Js.trip_count.
  apply Qceiling_resp_le in H. change (Qceiling 0) with 0%Z in H. lia.
Qed.

Lemma trip_count_pos (n : Q) : 0 < n -> (0 < Js.trip_count n)%nat.
Proof. intro H. apply (trip_count_spec n 0). exact H. Qed.

Lemma trip_count_mono (n n' : Q) :
  n <= n' -> (Js.trip_count n <= Js.trip_count n')%nat.
Proof.
  intro H. unfold Js.trip_count.
  apply Qceiling_resp_le in H. lia.
Qed.

Lemma lt_iff (x y : Q) : Js.lt x y = true <-> x < y.
Proof. unfold Js.lt. apply gt_iff. Qed.

Lemma for_from_fold {St : Type} (n : Q) (body : nat -> St -> St)
    (fuel i : nat) (st : St) :
  (i + fuel <= Js.trip_count n)%nat ->
  Js.for_from fuel i n body st
  = fold_left (fun st i => body i st) (seq i fuel) st.
Proof.
  revert i st. induction fuel as [|fuel IH]; intros i st Hle; [reflexivity|].
  cbn [Js.for_from seq fold_left].
  rewrite (proj2 (lt_iff (Js.of_nat i) n)) by (apply trip_count_spec; lia).
  apply IH. lia.
Qed.

(** The loop runs the body for [i = 0, ..., trip_count n - 1] ... *)
Lemma for_loop_fold {St : Type} (n : Q) (body : nat -> St -> St) (init : St) :
  Js.for_loop n body init
  = fold_left (fun st i => body i st) (seq 0 (Js.trip_count n)) init.
Proof. unfold Js.for_loop. apply for_from_fold. lia. Qed.

(** ... and then stops because its test [i < n] fails. *)
Lemma for_loop_exit (n : Q) :
  Js.lt (Js.of_nat (Js.trip_count n)) n = false.
Proof.
  destruct (Js.lt (Js.of_nat (Js.trip_count n)) n) eqn:E; [|reflexivity].
  apply lt_iff, trip_count_spec in E. lia.
Qed.

End JsFacts.
Import JsFacts.

(** ** The year loop, pass by pass *)

Section LoopFacts.

Variables (g : GeneralInputs) (c : CostInputs) (m : MarketInputs)
  (r : RevenueInputs) (s : Scenario).

Local Abbreviation prefix := (loop_prefix g c m r s).
Local Abbreviation body := (loop_body g c m r s).
Local Abbreviation result := (buildScenarioResult g c m r s).

Lemma loop_prefix_S (n : nat) : prefix (S n) = body n (prefix n).
Proof. unfold loop_prefix. now rewrite seq_S, fold_left_app. Qed.

Lemma result_yearly :
  yearly result = v_yearly (prefix (Js.trip_count (years g))).
Proof.
  unfold buildScenarioResult. cbn [yearly]. now rewrite for_loop_fold.
Qed.

Lemma result_paybackYear :
  paybackYear result = v_paybackYear (prefix (Js.trip_count (years g))).
Proof.
  unfold buildScenarioResult. cbn [paybackYear]. now rewrite for_loop_fold.
Qed.

(** Each pass pushes exactly one row, which obeys [row_spec], and leaves
    the running total equal to the figure stored in that row. *)
Lemma body_pushes (i : nat) (st : LoopVars) :
  exists y,
    v_yearly (body i st) = v_yearly st ++ [y]
    /\ row_spec g c m r s i (v_cumulativeCashFlow st) y
    /\ v_cumulativeCashFlow (body i st) = cumulativeCashFlow y.
Proof.
  eexists. split; [reflexivity|]. split; [|reflexivity].
  repeat split.
Qed.

Lemma body_paybackYear (i : nat) (st : LoopVars) :
  v_paybackYear (body i st)
  = match v_paybackYear st with
    | None =>
        if Js.ge (v_cumulativeCashFlow (body i st)) 0
        then Some (i + 1)%nat else None
    | Some p => Some p
    end.
Proof. reflexivity. Qed.

Lemma yearly_length (n : nat) : length (v_yearly (prefix n)) = n.
Proof.
  induction n as [|n IH]; [reflexivity|].
  rewrite loop_prefix_S.
  destruct (body_pushes n (prefix n)) as (y & -> & _).
  rewrite length_app, IH. simpl. lia.
Qed.

(** Rows already pushed are not touched by later passes. *)
Lemma yearly_stable (n k : nat) :
  (k < n)%nat ->
  nth_error (v_yearly (prefix n)) k = nth_error (v_yearly (prefix (S k))) k.
Proof.
  induction n as [|n IH]; intro Hk; [lia|].
  destruct (Nat.eq_dec k n) as [->|Hne]; [reflexivity|].
  rewrite <- IH by lia.
  rewrite loop_prefix_S.
  destruct (body_pushes n (prefix n)) as (y & -> & _).
  apply nth_error_app1. rewrite yearly_length. lia.
Qed.

(** Row [k] of the array is the row pushed by pass [k]. *)
Lemma yearly_row (n k : nat) (y : YearlyResult) :
  nth_error (v_yearly (prefix n)) k = Some y ->
  (k < n)%nat
  /\ row_spec g c m r s k (v_cumulativeCashFlow (prefix k)) y
  /\ cumulativeCashFlow y = v_cumulativeCashFlow (prefix (S k)).
Proof.
  intro H.
  assert (Hk : (k < n)%nat).
  { rewrite <- (yearly_length n). apply nth_error_Some. congruence. }
  split; [exact Hk|].
  rewrite yearly_stable in H by exact Hk.
  rewrite loop_prefix_S in *.
  destruct (body_pushes k (prefix k)) as (y' & Hy & Hspec & Hcum).
  rewrite Hy, nth_error_app2, yearly_length, Nat.sub_diag in H
    by (rewrite yearly_length; lia).
  injection H as <-. split; [exact Hspec | now symmetry].
Qed.

Lemma yearly_defined (n k : nat) :
  (k < n)%nat -> exists y, nth_error (v_yearly (prefix n)) k = Some y.
Proof.
  intro Hk.
  destruct (nth_error (v_yearly (prefix n)) k) as [y|] eqn:E; [now exists y|].
  apply nth_error_None in E. rewrite yearly_length in E. lia.
Qed.

End LoopFacts.

(** ** The payback latch *)

Section Payback.

Variables (g : GeneralInputs) (c : CostInputs) (m : MarketInputs)
  (r : RevenueInputs) (s : Scenario).

Local Abbreviation prefix := (loop_prefix g c m r s).

(** Once the latch holds a year, a further pass leaves it alone. *)
Lemma latch_kept (n p : nat) :
  v_paybackYear (prefix n) = Some p ->
  v_paybackYear (prefix (S n)) = Some p.
Proof.
  intro H. rewrite loop_prefix_S, body_paybackYear. now rewrite H.
Qed.

Lemma latch_kept_le (n n' p : nat) :
  (n <= n')%nat ->
  v_paybackYear (prefix n) = Some p ->
  v_paybackYear (prefix n') = Some p.
Proof.
  intros Hle H. induction Hle as [|n' _ IH]; [exact H|].
  now apply latch_kept.
Qed.

(** What the latch says about the running total after [n] passes: a
    recorded year [p] is the first pass that left the total non-negative;
    an empty latch means no pass so far did. *)
Lemma latch_invariant (n : nat) :
  match v_paybackYear (prefix n) with
  | Some p =>
      (1 <= p <= n)%nat
      /\ 0 <= v_cumulativeCashFlow (prefix p)
      /\ forall k, (1 <= k < p)%nat -> v_cumulativeCashFlow (prefix k) < 0
  | None =>
      forall k, (1 <= k <= n)%nat -> v_cumulativeCashFlow (prefix k) < 0
  end.
Proof.
  induction n as [|n IH].
  - cbn. intros k Hk. lia.
  - rewrite loop_prefix_S, body_paybackYear, <- loop_prefix_S.
    destruct (v_paybackYear (prefix n)) as [p|].
    + destruct IH as (Hp & Hge & Hlt). repeat split; try lia; assumption.
    + destruct (Js.ge (v_cumulativeCashFlow (prefix (S n))) 0) eqn:E.
      * apply ge_iff in E. replace (n + 1)%nat with (S n) by lia.
        repeat split; try lia; [exact E|].
        intros k Hk. apply IH. lia.
      * apply ge_false_iff in E. intros k Hk.
        destruct (Nat.eq_dec k (S n)) as [->|Hne]; [exact E|].
        apply IH. lia.
Qed.

(** A year ends up in the latch only by being put there by its own pass. *)
Lemma latch_set_at (n p : nat) :
  v_paybackYear (prefix n) = Some p ->
  v_paybackYear (prefix p) = Some p.
Proof.
  intro Hp. pose proof (latch_invariant n) as Hn. rewrite Hp in Hn.
  destruct Hn as (Hrange & Hge & _).
  pose proof (latch_invariant p) as Hinv.
  destruct (v_paybackYear (prefix p)) as [q|] eqn:E.
  - rewrite (latch_kept_le p n q) in Hp by (lia || exact E).
    exact Hp.
  - exfalso. apply (Qlt_not_le _ _ (Hinv p ltac:(lia)) Hge).
Qed.

End Payback.

(** ** Dependence on the inputs *)

(** The loop reads [general] only through [productType]. *)
Lemma loop_prefix_general (g g' : GeneralInputs) (c : CostInputs)
    (m : MarketInputs) (r : RevenueInputs) (s : Scenario) (n : nat) :
  productType g' = productType g ->
  loop_prefix g' c m r s n = loop_prefix g c m r s n.
Proof.
  intro H. unfold loop_prefix, loop_body, unitVariableCost.
  now rewrite H.
Qed.

Lemma of_nat_S (n : nat) : Js.of_nat (S n) == Js.of_nat n + 1.
Proof.
  unfold Js.of_nat. rewrite Nat2Z.inj_succ, <- Z.add_1_r, inject_Z_plus.
  reflexivity.
Qed.

(** ** Claims about the payback year *)

(** C1. If [buildScenarioResult] returns a payback year [p], then [p] is
    the first crossing of the cumulative cash flow: the figure recorded in
    [yearly[p-1]] is [>= 0] and the figure recorded in [yearly[k]] is
    [< 0] for every [k < p-1]; and [p] is not overwritten by a later
    year: the latch holds [p] after pass [p] and after every later pass,
    and the same inputs with any longer horizon return the same [p],
    whatever the cumulative cash flow does in the later years. *)
Theorem payback_first_crossing (g : GeneralInputs) (c : CostInputs)
    (m : MarketInputs) (r : RevenueInputs) (s : Scenario) (p : nat) :
  paybackYear (buildScenarioResult g c m r s) = Some p ->
  (1 <= p)%nat
  /\ (exists y,
        nth_error (yearly (buildScenarioResult g c m r s)) (p - 1) = Some y
        /\ 0 <= cumulativeCashFlow y)
  /\ (forall k y,
        (k < p - 1)%nat ->
        nth_error (yearly (buildScenarioResult g c m r s)) k = Some y ->
        cumulativeCashFlow y < 0)
  /\ (forall g',
        productType g' = productType g ->
        years g <= years g' ->
        paybackYear (buildScenarioResult g' c m r s) = Some p)
  /\ (forall n,
        (p <= n)%nat -> v_paybackYear (loop_prefix g c m r s n) = Some p).
Proof.
  rewrite result_paybackYear, result_yearly. intro Hp.
  pose proof (latch_invariant g c m r s (Js.trip_count (years g))) as Hinv.
  rewrite Hp in Hinv. destruct Hinv as (Hrange & Hge & Hlt).
  split; [lia|]. split; [|split; [|split]].
  - destruct (yearly_defined g c m r s (Js.trip_count (years g)) (p - 1))
      as [y Hy]; [lia|].
    exists y. split; [exact Hy|].
    apply yearly_row in Hy. destruct Hy as (_ & _ & ->).
    now replace (S (p - 1)) with p by lia.
  - intros k y Hk Hy.
    apply yearly_row in Hy. destruct Hy as (_ & _ & ->).
    apply Hlt. lia.
  - intros g' Hpt Hyears.
    rewrite result_paybackYear, (loop_prefix_general g g') by exact Hpt.
    apply (latch_kept_le g c m r s (Js.trip_count (years g))); [|exact Hp].
    now apply trip_count_mono.
  - intros n Hn.
    apply (latch_kept_le g c m r s p); [exact Hn|].
    exact (latch_set_at g c m r s _ p Hp).
Qed.

(** C10, as the code has it.  A payback year [p] is a whole number with
    [1 <= p] and [p - 1 < horizon], so [p < horizon + 1]; hence
    [p <= horizon] whenever the horizon is a whole number.  For a horizon
    [<= 0] the payback year is absent, whatever the upfront costs are. *)
Theorem payback_range (g : GeneralInputs) (c : CostInputs)
    (m : MarketInputs) (r : RevenueInputs) (s : Scenario) :
  (forall p,
      paybackYear (buildScenarioResult g c m r s) = Some p ->
      (1 <= p)%nat
      /\ Js.of_nat p < years g + 1
      /\ (forall z : Z, years g == inject_Z z -> Js.of_nat p <= years g))
  /\ (years g <= 0 -> paybackYear (buildScenarioResult g c m r s) = None).
Proof.
  split.
  - intros p Hp. rewrite result_paybackYear in Hp.
    pose proof (latch_invariant g c m r s (Js.trip_count (years g))) as Hinv.
    rewrite Hp in Hinv. destruct Hinv as (Hrange & _).
    assert (Hlt : Js.of_nat (p - 1) < years g).
    { apply trip_count_spec. lia. }
    assert (Hs : Js.of_nat p == Js.of_nat (p - 1) + 1).
    { rewrite <- of_nat_S. now replace (S (p - 1)) with p by lia. }
    split; [lia|]. split.
    + rewrite Hs. apply Qplus_lt_le_compat; [exact Hlt | apply Qle_refl].
    + intros z Hz. rewrite Hz in *. unfold Js.of_nat in *.
      rewrite <- Zle_Qle. rewrite <- Zlt_Qlt in Hlt. lia.
  - intro Hle. rewrite result_paybackYear, trip_count_nonpos by exact Hle.
    reflexivity.
Qed.

(** ** Claims about the cumulative cash flow *)

Section Cumulative.

Variables (g : GeneralInputs) (c : CostInputs) (m : MarketInputs)
  (r : RevenueInputs) (s : Scenario).

Local Abbreviation prefix := (loop_prefix g c m r s).

(** Pass [k] adds the net profit of row [k] to the running total. *)
Lemma running_total_step (n k : nat) (y : YearlyResult) :
  nth_error (v_yearly (prefix n)) k = Some y ->
  v_cumulativeCashFlow (prefix (S k))
  = v_cumulativeCashFlow (prefix k) + netProfit y.
Proof.
  intro H. apply yearly_row in H.
  destruct H as (_ & Hspec & Hcum). rewrite <- Hcum.
  now destruct Hspec as (_ & _ & _ & _ & _ & _ & _ & _ & _ & _ & ->).
Qed.

Lemma running_total_mono (n a b : nat) :
  (forall y, In y (v_yearly (prefix n)) -> 0 <= netProfit y) ->
  (a <= b <= n)%nat ->
  v_cumulativeCashFlow (prefix a) <= v_cumulativeCashFlow (prefix b).
Proof.
  intros Hnp [Hab Hbn]. induction Hab as [|b Hab IH].
  - apply Qle_refl.
  - destruct (yearly_defined g c m r s n b) as [y Hy]; [lia|].
    rewrite (running_total_step n b y Hy).
    apply Qle_trans with (y := v_cumulativeCashFlow (prefix b)); [apply IH; lia|].
    apply nth_error_In in Hy. apply Hnp in Hy.
    rewrite <- (Qplus_0_r (v_cumulativeCashFlow (prefix b))) at 1.
    apply Qplus_le_r. exact Hy.
Qed.

(** The running total is the net profits pushed so far, added in year
    order to the seed. *)
Lemma running_total_fold (n : nat) :
  v_cumulativeCashFlow (prefix n)
  = fold_left Qplus (map netProfit (v_yearly (prefix n))) (- upfrontCapex c).
Proof.
  induction n as [|n IH]; [reflexivity|].
  rewrite loop_prefix_S.
  destruct (body_pushes g c m r s n (prefix n)) as (y & Hy & Hspec & Hcum).
  rewrite Hy, Hcum, map_app, fold_left_app. cbn [map fold_left].
  destruct Hspec as (_ & _ & _ & _ & _ & _ & _ & _ & _ & _ & ->).
  now rewrite IH.
Qed.

End Cumulative.

Lemma reduce_as_fold (f : YearlyResult -> Q) (l : list YearlyResult)
    (a : Q) :
  fold_left (fun acc y => acc + f y) l a = fold_left Qplus (map f l) a.
Proof.
  revert a. induction l as [|y l IH]; intro a; [reflexivity|].
  cbn [map fold_left]. apply IH.
Qed.

(** C2, as the code has it.  For a horizon [>= 1], the cumulative cash
    flow of the last entry of [yearly] is the yearly net profits added in
    year order to [-(devCapex + launchMarketingCapex)], and
    [totalNetProfit] is the same net profits added in year order to 0; and
    if every year's net profit is [>= 0], no year's cumulative cash flow
    is below that of an earlier year. *)
Theorem cumulative_cash_flow_running_sum (g : GeneralInputs)
    (c : CostInputs) (m : MarketInputs) (r : RevenueInputs) (s : Scenario) :
  1 <= years g ->
  (exists y,
      nth_error (yearly (buildScenarioResult g c m r s))
        (length (yearly (buildScenarioResult g c m r s)) - 1) = Some y
      /\ cumulativeCashFlow y
         = fold_left Qplus
             (map netProfit (yearly (buildScenarioResult g c m r s)))
             (- (devCapex c + launchMarketingCapex c)))
  /\ totalNetProfit (buildScenarioResult g c m r s)
     = fold_left Qplus
         (map netProfit (yearly (buildScenarioResult g c m r s))) 0
  /\ ((forall y,
          In y (yearly (buildScenarioResult g c m r s)) -> 0 <= netProfit y) ->
      forall i j yi yj,
        (i <= j)%nat ->
        nth_error (yearly (buildScenarioResult g c m r s)) i = Some yi ->
        nth_error (yearly (buildScenarioResult g c m r s)) j = Some yj ->
        ~ cumulativeCashFlow yj < cumulativeCashFlow yi).
Proof.
  intro Hyears.
  assert (Htotal : totalNetProfit (buildScenarioResult g c m r s)
                   = fold_left Qplus
                       (map netProfit
                          (yearly (buildScenarioResult g c m r s))) 0).
  { unfold buildScenarioResult. cbn [totalNetProfit yearly].
    apply reduce_as_fold. }
  rewrite Htotal, result_yearly.
  set (n := Js.trip_count (years g)).
  assert (Hn : (0 < n)%nat).
  { apply trip_count_pos.
    apply Qlt_le_trans with (y := 1); [reflexivity | exact Hyears]. }
  split; [|split; [reflexivity|]].
  - rewrite yearly_length.
    destruct (yearly_defined g c m r s n (n - 1)) as [y Hy]; [lia|].
    exists y. split; [exact Hy|].
    apply yearly_row in Hy. destruct Hy as (_ & _ & ->).
    replace (S (n - 1)) with n by lia.
    apply running_total_fold.
  - intros Hnp i j yi yj Hij Hi Hj.
    apply yearly_row in Hi. destruct Hi as (_ & _ & ->).
    apply yearly_row in Hj. destruct Hj as (Hjn & _ & ->).
    apply Qle_not_lt.
    apply (running_total_mono g c m r s n); [exact Hnp | lia].
Qed.

(** ** Claims about single rows and about break-even *)

(** C3. [breakEvenUnits] is [(devCapex + launchMarketingCapex) /
    (basePricePerUnit - unitVariableCost)] when that margin is [> 0] and
    is absent ([null]) otherwise, in particular whenever
    [basePricePerUnit <= unitVariableCost]; it does not depend on the
    scenario, the price growth rate, the horizon or the market inputs. *)
Theorem break_even_units (g : GeneralInputs) (c : CostInputs)
    (m : MarketInputs) (r : RevenueInputs) (s : Scenario) :
  (0 < basePricePerUnit r - unitVariableCost g c ->
   breakEvenUnits (buildScenarioResult g c m r s)
   = Some ((devCapex c + launchMarketingCapex c)
           / (basePricePerUnit r - unitVariableCost g c)))
  /\ (~ 0 < basePricePerUnit r - unitVariableCost g c ->
      breakEvenUnits (buildScenarioResult g c m r s) = None)
  /\ (basePricePerUnit r <= unitVariableCost g c ->
      breakEvenUnits (buildScenarioResult g c m r s) = None)
  /\ (forall g' m' r' s',
        productType g' = productType g ->
        basePricePerUnit r' = basePricePerUnit r ->
        breakEvenUnits (buildScenarioResult g' c m' r' s')
        = breakEvenUnits (buildScenarioResult g c m r s)).
Proof.
  cbn [buildScenarioResult breakEvenUnits].
  assert (Hneg : ~ 0 < basePricePerUnit r - unitVariableCost g c ->
                 Js.gt (basePricePerUnit r - unitVariableCost g c) 0 = false).
  { intro H. apply gt_false_iff. now apply Qnot_lt_le. }
  repeat split.
  - intro H. apply gt_iff in H. now rewrite H.
  - intro H. now rewrite Hneg.
  - intro H. rewrite Hneg; [reflexivity|].
    apply Qle_not_lt. lra.
  - intros g' m' r' s' Hpt Hbp. unfold unitVariableCost.
    now rewrite Hpt, Hbp.
Qed.

(** C4. The per-unit variable cost is one value fixed by the product
    type: the sum of the three software costs for [software], of the four
    hardware costs for [hardware]; every year's [variableCost] is that
    value times the year's [units]. *)
Theorem variable_cost_per_unit_constant (g : GeneralInputs) (c : CostInputs)
    (m : MarketInputs) (r : RevenueInputs) (s : Scenario) :
  getVariableCostPerUnit software c
  = infraCostPerUser c + licenseCostPerUser c + supportCostPerUnit c
  /\ getVariableCostPerUnit hardware c
     = manufacturingCostPerUnit c + shippingCostPerUnit c
       + packagingCostPerUnit c + supportCostPerUnit c
  /\ forall k y,
       nth_error (yearly (buildScenarioResult g c m r s)) k = Some y ->
       variableCost y = getVariableCostPerUnit (productType g) c * units y.
Proof.
  split; [reflexivity|]. split; [reflexivity|].
  intros k y Hy. rewrite result_yearly in Hy. apply yearly_row in Hy.
  destruct Hy as (_ & Hspec & _).
  now destruct Hspec as (_ & _ & _ & _ & -> & _).
Qed.

(** C5. When the horizon is a non-negative integer [z], [yearly] has
    exactly [z] entries and entry [k] (0-based) has [year = k + 1]; a
    horizon of 0 gives the empty sequence. *)
Theorem yearly_shape (g : GeneralInputs) (c : CostInputs)
    (m : MarketInputs) (r : RevenueInputs) (s : Scenario) (z : Z) :
  (0 <= z)%Z ->
  years g == inject_Z z ->
  length (yearly (buildScenarioResult g c m r s)) = Z.to_nat z
  /\ (forall k,
        (k < Z.to_nat z)%nat ->
        exists y,
          nth_error (yearly (buildScenarioResult g c m r s)) k = Some y
          /\ year y = (k + 1)%nat)
  /\ (z = 0%Z -> yearly (buildScenarioResult g c m r s) = []).
Proof.
  intros Hz Hyears. rewrite result_yearly, (trip_count_of_Z z) by exact Hyears.
  split; [apply yearly_length|]. split.
  - intros k Hk.
    destruct (yearly_defined g c m r s (Z.to_nat z) k Hk) as [y Hy].
    exists y. split; [exact Hy|].
    apply yearly_row in Hy. destruct Hy as (_ & Hspec & _).
    now destruct Hspec as (-> & _).
  - intros ->. reflexivity.
Qed.

(** C6. In every year, a revenue [> 0] gives
    [grossMarginPct = grossProfit / revenue * 100] and
    [netMarginPct = netProfit / revenue * 100]; any other revenue, zero in
    particular, gives both percentages exactly 0, whatever the profits. *)
Theorem margin_percentages (g : GeneralInputs) (c : CostInputs)
    (m : MarketInputs) (r : RevenueInputs) (s : Scenario)
    (k : nat) (y : YearlyResult) :
  nth_error (yearly (buildScenarioResult g c m r s)) k = Some y ->
  (0 < Types.revenue y ->
   grossMarginPct y = grossProfit y / Types.revenue y * 100
   /\ netMarginPct y = netProfit y / Types.revenue y * 100)
  /\ (~ 0 < Types.revenue y -> grossMarginPct y = 0 /\ netMarginPct y = 0)
  /\ (Types.revenue y == 0 -> grossMarginPct y = 0 /\ netMarginPct y = 0).
Proof.
  intro Hy. rewrite result_yearly in Hy. apply yearly_row in Hy.
  destruct Hy as (_ & Hspec & _).
  destruct Hspec as (_ & _ & _ & _ & _ & _ & Hgm & _ & _ & Hnm & _).
  rewrite Hgm, Hnm.
  assert (Hneg : ~ 0 < Types.revenue y -> Js.gt (Types.revenue y) 0 = false).
  { intro H. apply gt_false_iff. now apply Qnot_lt_le. }
  repeat split.
  - apply gt_iff in H. now rewrite H.
  - apply gt_iff in H. now rewrite H.
  - now rewrite Hneg.
  - now rewrite Hneg.
  - rewrite Hneg; [reflexivity|]. rewrite H. apply Qlt_irrefl.
  - rewrite Hneg; [reflexivity|]. rewrite H. apply Qlt_irrefl.
Qed.

(** C8, as the code has it.  Every year below the horizon gets a row,
    however short the per-year sequences are: an index at or past the end
    of [tamUnitsPerYear] reads as TAM 0, one at or past the end of
    [adoptionPctPerYear] as adoption 0.  Such a year's [units] and
    [revenue] are neither positive nor negative, its [netProfit] is
    neither above nor below [- annualFixedOpex], and both its margin
    percentages are 0. *)
Theorem short_sequences_read_as_zero (g : GeneralInputs) (c : CostInputs)
    (m : MarketInputs) (r : RevenueInputs) (s : Scenario) (k : nat) :
  Js.of_nat k < years g ->
  exists y,
    nth_error (yearly (buildScenarioResult g c m r s)) k = Some y
    /\ ((length (tamUnitsPerYear m) <= k)%nat ->
        Js.index_or (tamUnitsPerYear m) k 0 = 0)
    /\ ((length (adoptionPctPerYear m) <= k)%nat ->
        Js.index_or (adoptionPctPerYear m) k 0 = 0)
    /\ ((length (tamUnitsPerYear m) <= k)%nat
        \/ (length (adoptionPctPerYear m) <= k)%nat ->
        (~ 0 < units y /\ ~ units y < 0)
        /\ (~ 0 < Types.revenue y /\ ~ Types.revenue y < 0)
        /\ (~ - annualFixedOpex c < netProfit y
            /\ ~ netProfit y < - annualFixedOpex c)
        /\ grossMarginPct y = 0
        /\ netMarginPct y = 0).
Proof.
  intro Hk. apply trip_count_spec in Hk.
  destruct (yearly_defined g c m r s _ k Hk) as [y Hy].
  exists y. rewrite result_yearly. split; [exact Hy|].
  split; [apply index_or_beyond|]. split; [apply index_or_beyond|].
  intro Hshort.
  apply yearly_row in Hy. destruct Hy as (_ & Hspec & _).
  destruct Hspec as (_ & _ & Hu & Hr & Hv & Hg & Hgm & Hf & Hn & Hnm & _).
  assert (Hu0 : units y == 0).
  { rewrite Hu. destruct Hshort as [H|H];
      rewrite (index_or_beyond _ _ _ H); unfold Qdiv; ring. }
  assert (Hr0 : Types.revenue y == 0).
  { rewrite Hr, Hu0. ring. }
  assert (Hn0 : netProfit y == - annualFixedOpex c).
  { rewrite Hn, Hg, Hv, Hf, Hr0, Hu0. ring. }
  assert (Hgt : Js.gt (Types.revenue y) 0 = false).
  { apply gt_false_iff. rewrite Hr0. apply Qle_refl. }
  rewrite Hgm, Hnm, Hgt, Hu0, Hr0, Hn0.
  repeat split; try reflexivity; apply Qlt_irrefl.
Qed.

(** ** Claims relating two runs *)

(** The loop reads [cost] only through the per-unit variable cost, the
    annual fixed cost and the upfront total. *)
Lemma loop_prefix_cost (g : GeneralInputs) (c c' : CostInputs)
    (m : MarketInputs) (r : RevenueInputs) (s : Scenario) (n : nat) :
  unitVariableCost g c = unitVariableCost g c' ->
  annualFixedOpex c = annualFixedOpex c' ->
  upfrontCapex c = upfrontCapex c' ->
  loop_prefix g c m r s n = loop_prefix g c' m r s n.
Proof.
  intros Hu Hf Hc. unfold loop_prefix, loop_init, loop_body.
  now rewrite Hu, Hf, Hc.
Qed.

Lemma result_cost (g : GeneralInputs) (c c' : CostInputs)
    (m : MarketInputs) (r : RevenueInputs) (s : Scenario) :
  unitVariableCost g c = unitVariableCost g c' ->
  annualFixedOpex c = annualFixedOpex c' ->
  upfrontCapex c = upfrontCapex c' ->
  buildScenarioResult g c m r s = buildScenarioResult g c' m r s.
Proof.
  intros Hu Hf Hc. unfold buildScenarioResult.
  rewrite !for_loop_fold.
  change (fold_left (fun st i => loop_body g c m r s i st)
            (seq 0 (Js.trip_count (years g))) (loop_init c))
    with (loop_prefix g c m r s (Js.trip_count (years g))).
  rewrite (loop_prefix_cost g c c') by assumption.
  now rewrite Hu, Hc.
Qed.

(** C9. For a software product, two calls whose cost inputs differ only
    in the manufacturing, shipping or packaging cost return the same
    result; for a hardware product, two calls whose cost inputs differ
    only in the infrastructure or licence cost return the same result. *)
Theorem unselected_costs_do_not_interfere (g : GeneralInputs)
    (c c' : CostInputs) (m : MarketInputs) (r : RevenueInputs)
    (s : Scenario) :
  (productType g = software ->
   differ_only_in_hardware_costs c c' ->
   buildScenarioResult g c m r s = buildScenarioResult g c' m r s)
  /\ (productType g = hardware ->
      differ_only_in_software_costs c c' ->
      buildScenarioResult g c m r s = buildScenarioResult g c' m r s).
Proof.
  split.
  - intros Hpt (Hd & Hl & Hi & Hli & Hs & Hf).
    apply result_cost; [|exact Hf|].
    + unfold unitVariableCost, getVariableCostPerUnit.
      rewrite Hpt. congruence.
    + unfold upfrontCapex. congruence.
  - intros Hpt (Hd & Hl & Hm & Hsh & Hp & Hs & Hf).
    apply result_cost; [|exact Hf|].
    + unfold unitVariableCost, getVariableCostPerUnit.
      rewrite Hpt. congruence.
    + unfold upfrontCapex. congruence.
Qed.

(** Two products that are the same fraction, not only equal ones. *)
Lemma times_one (x : Q) : x * 1 = x.
Proof.
  destruct x as [n d]. unfold Qmult. cbn [Qnum Qden].
  now rewrite Z.mul_1_r, Pos.mul_1_r.
Qed.

Lemma times_comm (x y : Q) : x * y = y * x.
Proof.
  unfold Qmult. now rewrite Z.mul_comm, Pos.mul_comm.
Qed.

(** C7, as the code has it.  Against the baseline run (the same call
    with both multipliers 1.0), each year's [pricePerUnit] is
    [priceMultiplier] times the baseline's, each year's [units] is
    [adoptionMultiplier] times the baseline's, and each year's [revenue]
    is the product of these two scaled figures; a scenario with both
    multipliers 1.0 has the baseline's rows. *)
Theorem scenario_scales_price_and_units (g : GeneralInputs)
    (c : CostInputs) (m : MarketInputs) (r : RevenueInputs) (s : Scenario) :
  (forall k y,
      nth_error (yearly (buildScenarioResult g c m r s)) k = Some y ->
      exists y0,
        nth_error (yearly (buildScenarioResult g c m r (baseline_of s))) k
        = Some y0
        /\ pricePerUnit y = priceMultiplier s * pricePerUnit y0
        /\ units y = adoptionMultiplier s * units y0
        /\ Types.revenue y
           = (priceMultiplier s * pricePerUnit y0)
             * (adoptionMultiplier s * units y0))
  /\ (priceMultiplier s = 1 ->
      adoptionMultiplier s = 1 ->
      yearly (buildScenarioResult g c m r s)
      = yearly (buildScenarioResult g c m r (baseline_of s))).
Proof.
  rewrite !result_yearly. split.
  - intros k y Hy. apply yearly_row in Hy.
    destruct Hy as (Hk & Hspec & _).
    destruct (yearly_defined g c m r (baseline_of s) _ k Hk) as [y0 Hy0].
    exists y0. split; [exact Hy0|].
    apply yearly_row in Hy0. destruct Hy0 as (_ & Hspec0 & _).
    destruct Hspec as (_ & Hp & Hu & Hr & _).
    destruct Hspec0 as (_ & Hp0 & Hu0 & _).
    cbn [baseline_of priceMultiplier adoptionMultiplier] in Hp0, Hu0.
    rewrite times_one in Hp0, Hu0.
    assert (Ep : pricePerUnit y = priceMultiplier s * pricePerUnit y0)
      by (rewrite Hp, Hp0; apply times_comm).
    assert (Eu : units y = adoptionMultiplier s * units y0)
      by (rewrite Hu, Hu0; apply times_comm).
    split; [exact Ep|]. split; [exact Eu|].
    now rewrite Hr, Ep, Eu.
  - intros Hpm Ham. unfold loop_prefix, loop_body.
    cbn [baseline_of priceMultiplier adoptionMultiplier].
    now rewrite Hpm, Ham.
Qed.

(** ** The sample inputs, run *)

(** The worked example of the specification. *)
Example spec_worked_example :
  let res :=
    buildScenarioResult ex_general ex_cost ex_market ex_revenue ex_scenario in
  paybackYear res = Some 1%nat
  /\ map (fun y => Qred (cumulativeCashFlow y)) (yearly res) = [3500; 8000]
  /\ map (fun y => Qred (units y)) (yearly res) = [500; 500]
  /\ Qred (totalRevenue res) = 10000
  /\ Qred (totalNetProfit res) = 9000
  /\ option_map Qred (breakEvenUnits res) = Some (1000 # 9).
Proof. vm_compute. repeat split. Qed.

(** The latch keeps year 1 although the cumulative cash flow is negative
    again in year 2 and non-negative again in year 3. *)
Example payback_kept_through_dip :
  let res :=
    buildScenarioResult ex_general_3 ex_cost_dip ex_market_dip ex_revenue
      ex_scenario in
  map (fun y => Qred (cumulativeCashFlow y)) (yearly res) = [30; -30; 910]
  /\ paybackYear res = Some 1%nat.
Proof. vm_compute. repeat split. Qed.

(** [payback_first_crossing] on the two-and-a-half-year run: payback in
    year 3, after two years below zero. *)
Lemma payback_first_crossing_witness :
  paybackYear
    (buildScenarioResult ex_general_half ex_cost_heavy ex_market_3 ex_revenue
       ex_scenario) = Some 3%nat
  /\ (exists y,
        nth_error
          (yearly
             (buildScenarioResult ex_general_half ex_cost_heavy ex_market_3
                ex_revenue ex_scenario)) (3 - 1) = Some y
        /\ 0 <= cumulativeCashFlow y)
  /\ paybackYear
       (buildScenarioResult ex_general_3 ex_cost_heavy ex_market_3 ex_revenue
          ex_scenario) = Some 3%nat.
Proof.
  assert (Hp : paybackYear
                 (buildScenarioResult ex_general_half ex_cost_heavy
                    ex_market_3 ex_revenue ex_scenario) = Some 3%nat)
    by (vm_compute; reflexivity).
  destruct (payback_first_crossing ex_general_half ex_cost_heavy ex_market_3
              ex_revenue ex_scenario 3 Hp) as (_ & Hat & _ & Hlater & _).
  split; [exact Hp|]. split; [exact Hat|].
  apply Hlater; by_evaluation.
Defined.

(** [break_even_units] on the worked example (margin 9) and on a price
    below the unit cost. *)
Lemma break_even_units_witness :
  breakEvenUnits
    (buildScenarioResult ex_general ex_cost ex_market ex_revenue ex_scenario)
  = Some ((devCapex ex_cost + launchMarketingCapex ex_cost)
          / (basePricePerUnit ex_revenue
             - unitVariableCost ex_general ex_cost))
  /\ breakEvenUnits
       (buildScenarioResult ex_general ex_cost_software ex_market
          ex_revenue_cheap ex_scenario) = None
  /\ breakEvenUnits
       (buildScenarioResult ex_general_half ex_cost ex_market_3 ex_revenue
          ex_aggressive)
     = breakEvenUnits
         (buildScenarioResult ex_general ex_cost ex_market ex_revenue
            ex_scenario).
Proof.
  destruct (break_even_units ex_general ex_cost ex_market ex_revenue
              ex_scenario) as (Hpos & _ & _ & Hindep).
  destruct (break_even_units ex_general ex_cost_software ex_market
              ex_revenue_cheap ex_scenario) as (_ & Hneg & Hle & _).
  split; [|split].
  - apply Hpos. by_evaluation.
  - apply Hle. by_evaluation.
  - apply Hindep; reflexivity.
Defined.

(** [variable_cost_per_unit_constant] on year 2 of the hardware run. *)
Lemma variable_cost_per_unit_constant_witness :
  exists y,
    nth_error
      (yearly
         (buildScenarioResult ex_general_hardware ex_cost_hardware ex_market
            ex_revenue ex_scenario)) 1 = Some y
    /\ variableCost y
       = getVariableCostPerUnit hardware ex_cost_hardware * units y.
Proof.
  read_row (buildScenarioResult ex_general_hardware ex_cost_hardware
              ex_market ex_revenue ex_scenario) 1%nat y E.
  exists y. split; [reflexivity|].
  destruct (variable_cost_per_unit_constant ex_general_hardware
              ex_cost_hardware ex_market ex_revenue ex_scenario)
    as (_ & _ & Hrow).
  exact (Hrow 1%nat y E).
Defined.

(** [yearly_shape] on the worked example, horizon 2. *)
Lemma yearly_shape_witness :
  (0 <= 2)%Z
  /\ years ex_general == inject_Z 2
  /\ length
       (yearly
          (buildScenarioResult ex_general ex_cost ex_market ex_revenue
             ex_scenario)) = Z.to_nat 2
  /\ exists y,
       nth_error
         (yearly
            (buildScenarioResult ex_general ex_cost ex_market ex_revenue
               ex_scenario)) 1 = Some y
       /\ year y = (1 + 1)%nat.
Proof.
  assert (H0 : (0 <= 2)%Z) by lia.
  assert (H2 : years ex_general == inject_Z 2) by reflexivity.
  destruct (yearly_shape ex_general ex_cost ex_market ex_revenue ex_scenario
              2 H0 H2) as (Hlen & Hyear & _).
  split; [exact H0|]. split; [exact H2|]. split; [exact Hlen|].
  apply Hyear. vm_compute. lia.
Defined.

(** [margin_percentages] on the three-year run of the worked example:
    year 1 has revenue 5000, year 3 has no market data and revenue 0. *)
Lemma margin_percentages_witness :
  (exists y,
      nth_error
        (yearly
           (buildScenarioResult ex_general_3 ex_cost ex_market ex_revenue
              ex_scenario)) 0 = Some y
      /\ 0 < Types.revenue y
      /\ grossMarginPct y = grossProfit y / Types.revenue y * 100
      /\ netMarginPct y = netProfit y / Types.revenue y * 100)
  /\ (exists y,
        nth_error
          (yearly
             (buildScenarioResult ex_general_3 ex_cost ex_market ex_revenue
                ex_scenario)) 2 = Some y
        /\ Types.revenue y == 0
        /\ grossMarginPct y = 0
        /\ netMarginPct y = 0).
Proof.
  split.
  - read_row (buildScenarioResult ex_general_3 ex_cost ex_market ex_revenue
                ex_scenario) 0%nat y E.
    destruct (margin_percentages ex_general_3 ex_cost ex_market ex_revenue
                ex_scenario 0 y E) as (Hpos & _ & _).
    assert (Hrev : 0 < Types.revenue y).
    { vm_compute in E. injection E as <-. by_evaluation. }
    exists y. split; [reflexivity|]. split; [exact Hrev|]. exact (Hpos Hrev).
  - read_row (buildScenarioResult ex_general_3 ex_cost ex_market ex_revenue
                ex_scenario) 2%nat y E.
    destruct (margin_percentages ex_general_3 ex_cost ex_market ex_revenue
                ex_scenario 2 y E) as (_ & _ & Hzero).
    assert (Hrev : Types.revenue y == 0).
    { vm_compute in E. injection E as <-. by_evaluation. }
    exists y. split; [reflexivity|]. split; [exact Hrev|]. exact (Hzero Hrev).
Defined.

(** [unselected_costs_do_not_interfere] on the worked example: filling in
    the hardware costs of a software product, and changing the software
    costs of a hardware product. *)
Lemma unselected_costs_do_not_interfere_witness :
  buildScenarioResult ex_general ex_cost ex_market ex_revenue ex_scenario
  = buildScenarioResult ex_general ex_cost_hardware ex_market ex_revenue
      ex_scenario
  /\ buildScenarioResult ex_general_hardware ex_cost_hardware ex_market
       ex_revenue ex_scenario
     = buildScenarioResult ex_general_hardware ex_cost_software ex_market
         ex_revenue ex_scenario.
Proof.
  destruct (unselected_costs_do_not_interfere ex_general ex_cost
              ex_cost_hardware ex_market ex_revenue ex_scenario)
    as (Hsoft & _).
  destruct (unselected_costs_do_not_interfere ex_general_hardware
              ex_cost_hardware ex_cost_software ex_market ex_revenue
              ex_scenario) as (_ & Hhard).
  split.
  - apply Hsoft; [reflexivity | repeat split].
  - apply Hhard; [reflexivity | repeat split].
Defined.

(** C10 as stated fails on the two-and-a-half-year run: the loop test
    [2 < 2.5] lets a third pass run, which sets the payback year to 3. *)
Lemma payback_beyond_fractional_horizon :
  ~ (forall p,
        paybackYear
          (buildScenarioResult ex_general_half ex_cost_heavy ex_market_3
             ex_revenue ex_scenario) = Some p ->
        (1 <= p)%nat /\ Js.of_nat p <= years ex_general_half).
Proof.
  intro H. destruct (H 3%nat) as (_ & Hle); [vm_compute; reflexivity|].
  apply Qle_not_lt in Hle. apply Hle. by_evaluation.
Qed.

(** [payback_range] on the same run, on the three-year run (an integer
    horizon), and on a horizon of 0 with no upfront cost. *)
Lemma payback_range_witness :
  paybackYear
    (buildScenarioResult ex_general_half ex_cost_heavy ex_market_3 ex_revenue
       ex_scenario) = Some 3%nat
  /\ Js.of_nat 3 < years ex_general_half + 1
  /\ years ex_general_3 == inject_Z 3
  /\ Js.of_nat 3 <= years ex_general_3
  /\ years ex_general_0 <= 0
  /\ paybackYear
       (buildScenarioResult ex_general_0 ex_cost_free ex_market ex_revenue
          ex_scenario) = None.
Proof.
  assert (Hp : paybackYear
                 (buildScenarioResult ex_general_half ex_cost_heavy
                    ex_market_3 ex_revenue ex_scenario) = Some 3%nat)
    by (vm_compute; reflexivity).
  assert (Hp3 : paybackYear
                  (buildScenarioResult ex_general_3 ex_cost_heavy
                     ex_market_3 ex_revenue ex_scenario) = Some 3%nat)
    by (vm_compute; reflexivity).
  assert (Hz : years ex_general_3 == inject_Z 3) by reflexivity.
  assert (H0 : years ex_general_0 <= 0) by by_evaluation.
  destruct (payback_range ex_general_half ex_cost_heavy ex_market_3
              ex_revenue ex_scenario) as (Hsome & _).
  destruct (Hsome 3%nat Hp) as (_ & Hlt & _).
  destruct (payback_range ex_general_3 ex_cost_heavy ex_market_3
              ex_revenue ex_scenario) as (Hsome3 & _).
  destruct (Hsome3 3%nat Hp3) as (_ & _ & Hint).
  destruct (payback_range ex_general_0 ex_cost_free ex_market ex_revenue
              ex_scenario) as (_ & Hnone).
  split; [exact Hp|]. split; [exact Hlt|]. split; [exact Hz|].
  split; [exact (Hint 3%Z Hz)|]. split; [exact H0 | exact (Hnone H0)].
Defined.

(** * Further properties of the engine and of its callers *)

Section Totals.

Variables (g : GeneralInputs) (c : CostInputs) (m : MarketInputs)
  (r : RevenueInputs) (s : Scenario).

Local Abbreviation prefix := (loop_prefix g c m r s).

Lemma result_totalRevenue :
  totalRevenue (buildScenarioResult g c m r s)
  = sum_of Types.revenue (yearly (buildScenarioResult g c m r s)).
Proof. reflexivity. Qed.

Lemma result_totalNetProfit_sum :
  totalNetProfit (buildScenarioResult g c m r s)
  = sum_of netProfit (yearly (buildScenarioResult g c m r s)).
Proof. reflexivity. Qed.

End Totals.

(** ** More on the payback year *)

(** X5. A horizon that is zero or negative gives no rows, both totals 0
    and no payback year. *)
Theorem nonpositive_horizon_is_empty (g : GeneralInputs) (c : CostInputs)
    (m : MarketInputs) (r : RevenueInputs) (s : Scenario) :
  years g <= 0 ->
  yearly (buildScenarioResult g c m r s) = []
  /\ totalRevenue (buildScenarioResult g c m r s) = 0
  /\ totalNetProfit (buildScenarioResult g c m r s) = 0
  /\ paybackYear (buildScenarioResult g c m r s) = None.
Proof.
  intro Hle.
  assert (Hy : yearly (buildScenarioResult g c m r s) = []).
  { rewrite result_yearly, trip_count_nonpos by exact Hle. reflexivity. }
  split; [exact Hy|].
  rewrite result_totalRevenue, result_totalNetProfit_sum, Hy.
  split; [reflexivity|]. split; [reflexivity|].
  rewrite result_paybackYear, trip_count_nonpos by exact Hle. reflexivity.
Qed.

(** ** Which inputs a row depends on *)

(** A pass reads the market inputs only at its own index. *)
Lemma loop_body_market (g : GeneralInputs) (c : CostInputs)
    (m m' : MarketInputs) (r : RevenueInputs) (s : Scenario)
    (i : nat) (st : LoopVars) :
  samPct m = samPct m' ->
  somPct m = somPct m' ->
  Js.index_or (tamUnitsPerYear m) i 0 = Js.index_or (tamUnitsPerYear m') i 0 ->
  Js.index_or (adoptionPctPerYear m) i 0
  = Js.index_or (adoptionPctPerYear m') i 0 ->
  loop_body g c m r s i st = loop_body g c m' r s i st.
Proof.
  intros Hsam Hsom Htam Had. unfold loop_body.
  now rewrite Hsam, Hsom, Htam, Had.
Qed.

Lemma loop_prefix_market (g : GeneralInputs) (c : CostInputs)
    (m m' : MarketInputs) (r : RevenueInputs) (s : Scenario) (k n : nat) :
  samPct m = samPct m' ->
  somPct m = somPct m' ->
  (forall i,
      (i <= k)%nat ->
      Js.index_or (tamUnitsPerYear m) i 0
      = Js.index_or (tamUnitsPerYear m') i 0
      /\ Js.index_or (adoptionPctPerYear m) i 0
         = Js.index_or (adoptionPctPerYear m') i 0) ->
  (n <= S k)%nat ->
  loop_prefix g c m r s n = loop_prefix g c m' r s n.
Proof.
  intros Hsam Hsom Hread. induction n as [|n IH]; intro Hn; [reflexivity|].
  rewrite !loop_prefix_S, IH by lia.
  destruct (Hread n) as (Htam & Had); [lia|].
  now apply loop_body_market.
Qed.

(** X6. Market figures of later years never reach an earlier row: when
    two market inputs have the same SAM and SOM percentages and read the
    same TAM and adoption for the years up to [k + 1], rows [0..k] of
    [yearly] are the same, and so is a payback year that falls within
    those years. *)
Theorem later_market_years_do_not_reach_back (g : GeneralInputs)
    (c : CostInputs) (m m' : MarketInputs) (r : RevenueInputs)
    (s : Scenario) (k : nat) :
  samPct m = samPct m' ->
  somPct m = somPct m' ->
  (forall i,
      (i <= k)%nat ->
      Js.index_or (tamUnitsPerYear m) i 0
      = Js.index_or (tamUnitsPerYear m') i 0
      /\ Js.index_or (adoptionPctPerYear m) i 0
         = Js.index_or (adoptionPctPerYear m') i 0) ->
  (forall j,
      (j <= k)%nat ->
      nth_error (yearly (buildScenarioResult g c m r s)) j
      = nth_error (yearly (buildScenarioResult g c m' r s)) j)
  /\ (forall p,
        (p <= S k)%nat ->
        paybackYear (buildScenarioResult g c m r s) = Some p ->
        paybackYear (buildScenarioResult g c m' r s) = Some p).
Proof.
  intros Hsam Hsom Hread. rewrite !result_yearly, !result_paybackYear.
  set (n := Js.trip_count (years g)). split.
  - intros j Hj. destruct (Nat.lt_ge_cases j n) as [Hlt|Hge].
    + rewrite !(yearly_stable _ _ _ _ _ n j) by exact Hlt.
      now rewrite (loop_prefix_market g c m m' r s k (S j)) by (auto; lia).
    + rewrite !(proj2 (nth_error_None _ _)); [reflexivity| |];
        rewrite yearly_length; exact Hge.
  - intros p Hp Hsome.
    pose proof (latch_invariant g c m r s n) as Hinv.
    rewrite Hsome in Hinv. destruct Hinv as (Hrange & _).
    apply (latch_kept_le g c m' r s p n); [lia|].
    rewrite <- (loop_prefix_market g c m m' r s k p) by (auto; lia).
    exact (latch_set_at g c m r s n p Hsome).
Qed.

(** The rows of the first [n] passes are the first [n] rows of any
    longer run. *)
Lemma yearly_firstn (g : GeneralInputs) (c : CostInputs) (m : MarketInputs)
    (r : RevenueInputs) (s : Scenario) (n n' : nat) :
  (n <= n')%nat ->
  v_yearly (loop_prefix g c m r s n)
  = firstn n (v_yearly (loop_prefix g c m r s n')).
Proof.
  intro Hle. induction Hle as [|n' Hle IH].
  - rewrite <- (yearly_length g c m r s n) at 2. now rewrite firstn_all.
  - rewrite loop_prefix_S.
    destruct (body_pushes g c m r s n' (loop_prefix g c m r s n'))
      as (y & -> & _).
    rewrite firstn_app, yearly_length.
    replace (n - n')%nat with 0%nat by lia.
    now rewrite firstn_O, app_nil_r.
Qed.

(** X7. Lengthening the horizon only appends rows: the rows of a run are
    the first rows of the run with any longer horizon. *)
Theorem longer_horizon_extends_yearly (g g' : GeneralInputs)
    (c : CostInputs) (m : MarketInputs) (r : RevenueInputs) (s : Scenario) :
  productType g' = productType g ->
  years g <= years g' ->
  yearly (buildScenarioResult g c m r s)
  = firstn (length (yearly (buildScenarioResult g c m r s)))
      (yearly (buildScenarioResult g' c m r s)).
Proof.
  intros Hpt Hyears. rewrite !result_yearly, yearly_length.
  rewrite (loop_prefix_general g g') by exact Hpt.
  apply yearly_firstn. now apply trip_count_mono.
Qed.

(** ** [src/App.tsx] *)

(** X11. The competitor delta is absent exactly when the competitor price
    is not positive; when present, it is [>= 0] (and shown with a "+")
    exactly when the own base price is at least the competitor's, and
    [> 0] exactly when the own price is higher. *)
Theorem competitor_delta_sign (r : RevenueInputs) (comp : CompetitorInputs) :
  (App.competitorDelta r comp = None <-> competitorPrice comp <= 0)
  /\ (forall d,
        App.competitorDelta r comp = Some d ->
        (0 <= d <-> competitorPrice comp <= basePricePerUnit r)
        /\ (0 < d <-> competitorPrice comp < basePricePerUnit r)
        /\ (App.competitorSign d = "+"%string
            <-> competitorPrice comp <= basePricePerUnit r)).
Proof.
  unfold App.competitorDelta.
  destruct (Js.gt (competitorPrice comp) 0) eqn:E.
  - apply gt_iff in E. split.
    + split; [discriminate|]. intro Hle. exfalso.
      exact (Qlt_not_le _ _ E Hle).
    + intros d Hd. injection Hd as <-.
      set (b := basePricePerUnit r) in *.
      set (p := competitorPrice comp) in *.
      assert (Hne : ~ p == 0).
      { intro H0. rewrite H0 in E. exact (Qlt_irrefl _ E). }
      assert (Hback : (b - p) / p * 100 * p == 100 * (b - p))
        by (field; exact Hne).
      assert (Hle : 0 <= (b - p) / p * 100 <-> p <= b).
      { split; intro H.
        - assert (H1 : 0 <= (b - p) / p * 100 * p)
            by (apply Qmult_le_0_compat; [exact H | apply Qlt_le_weak, E]).
          rewrite Hback in H1. lra.
        - apply Qmult_le_0_compat; [|discriminate].
          apply Qmult_le_0_compat; [lra|].
          apply Qinv_le_0_compat, Qlt_le_weak, E. }
      assert (Hlt : 0 < (b - p) / p * 100 <-> p < b).
      { split; intro H.
        - assert (H1 : 0 < (b - p) / p * 100 * p)
            by (apply Qmult_lt_0_compat; [exact H | exact E]).
          rewrite Hback in H1. lra.
        - apply Qmult_lt_0_compat; [|reflexivity].
          apply Qmult_lt_0_compat; [lra|].
          apply Qinv_lt_0_compat, E. }
      split; [exact Hle|]. split; [exact Hlt|].
      unfold App.competitorSign. rewrite <- Hle.
      destruct (Js.ge ((b - p) / p * 100) 0) eqn:Eg.
      * apply ge_iff in Eg. split; [intros _; exact Eg | reflexivity].
      * apply ge_false_iff in Eg. split; [discriminate|].
        intro H. exfalso. exact (Qlt_not_le _ _ Eg H).
  - apply gt_false_iff in E. split.
    + split; [intros _; exact E | reflexivity].
    + discriminate.
Qed.

(** Looking a scenario's result up by id is looking the scenario up. *)
Lemma find_result_by_id (g : GeneralInputs) (c : CostInputs)
    (m : MarketInputs) (r : RevenueInputs) (scenarios : list Scenario)
    (x : string) :
  find (fun res => String.eqb (id (Types.scenario res)) x)
    (App.scenarioResults g c m r scenarios)
  = option_map (buildScenarioResult g c m r)
      (find (fun s => String.eqb (id s) x) scenarios).
Proof.
  unfold App.scenarioResults.
  induction scenarios as [|s l IH]; [reflexivity|].
  cbn [map find]. cbn [buildScenarioResult Types.scenario].
  destruct (String.eqb (id s) x); [reflexivity | exact IH].
Qed.

Lemma find_first_is_unique (l : list Scenario) (s s1 : Scenario) :
  NoDup (map id l) ->
  In s l ->
  find (fun s' => String.eqb (id s') (id s)) l = Some s1 ->
  s1 = s.
Proof.
  induction l as [|a l IH]; intros Hnd Hin Hfind; [contradiction|].
  cbn [map] in Hnd. inversion Hnd as [|? ? Hnotin Hnd']; subst.
  cbn [find] in Hfind. destruct (String.eqb (id a) (id s)) eqn:E.
  - injection Hfind as <-. apply String.eqb_eq in E.
    destruct Hin as [->|Hin]; [reflexivity|].
    exfalso. apply Hnotin. rewrite E. now apply in_map.
  - destruct Hin as [->|Hin]; [now rewrite String.eqb_refl in E|].
    now apply IH.
Qed.

(** X12. Selecting a scenario and its result.  The selection exists
    whenever there are at least two scenarios; it is a scenario of the
    list, and it carries the selected id whenever some scenario does.
    The current result then exists and has the selection's id; it is the
    engine's run of the selection itself when the selection carries the
    selected id or the scenario ids are pairwise distinct. *)
Theorem current_result_of_selection (g : GeneralInputs) (c : CostInputs)
    (m : MarketInputs) (r : RevenueInputs) (scenarios : list Scenario)
    (sid : string) :
  ((2 <= length scenarios)%nat ->
   exists s, App.selectedScenario scenarios sid = Some s)
  /\ (forall s,
        App.selectedScenario scenarios sid = Some s ->
        In s scenarios
        /\ ((exists s0, In s0 scenarios /\ id s0 = sid) -> id s = sid)
        /\ exists res,
             App.currentResult (App.scenarioResults g c m r scenarios) s
             = Some res
             /\ id (Types.scenario res) = id s
             /\ (id s = sid \/ NoDup (map id scenarios) ->
                 res = buildScenarioResult g c m r s)).
Proof.
  unfold App.selectedScenario, App.currentResult. split.
  - intro Hlen.
    destruct (find (fun s => String.eqb (id s) sid) scenarios) as [s|];
      [now exists s|].
    destruct (nth_error scenarios 1) as [s|] eqn:E; [now exists s|].
    apply nth_error_None in E. lia.
  - intros s Hsel.
    assert (Hin : In s scenarios).
    { destruct (find (fun s => String.eqb (id s) sid) scenarios) as [s'|] eqn:E.
      - injection Hsel as <-. now apply find_some in E.
      - now apply nth_error_In in Hsel. }
    assert (Hfound : (exists s0, In s0 scenarios /\ id s0 = sid) ->
                     find (fun s => String.eqb (id s) sid) scenarios = Some s
                     /\ id s = sid).
    { intros (s0 & Hin0 & Hid0).
      destruct (find (fun s => String.eqb (id s) sid) scenarios) as [s'|] eqn:E.
      - injection Hsel as <-. split; [reflexivity|].
        apply find_some in E. now apply String.eqb_eq.
      - exfalso. pose proof (find_none _ _ E s0 Hin0) as Hno.
        cbn in Hno. rewrite Hid0, String.eqb_refl in Hno. discriminate. }
    split; [exact Hin|]. split; [intro H; now apply Hfound|].
    rewrite find_result_by_id.
    destruct (find (fun s' => String.eqb (id s') (id s)) scenarios)
      as [s1|] eqn:E1.
    + exists (buildScenarioResult g c m r s1). split; [reflexivity|].
      pose proof (find_some _ _ E1) as (_ & Hid1).
      apply String.eqb_eq in Hid1.
      split; [exact Hid1|]. intros [Hid|Hnd].
      * destruct (Hfound (ex_intro _ s (conj Hin Hid))) as (Hf & _).
        rewrite <- Hid in Hf. rewrite Hf in E1. now injection E1 as <-.
      * now rewrite (find_first_is_unique scenarios s s1 Hnd Hin E1).
    + exfalso. pose proof (find_none _ _ E1 s Hin) as Hno.
      cbn in Hno. rewrite String.eqb_refl in Hno. discriminate.
Qed.

(** A payback year returned by the engine is never 0, so it is truthy. *)
Lemma payback_year_truthy (g : GeneralInputs) (c : CostInputs)
    (m : MarketInputs) (r : RevenueInputs) (s : Scenario) (p : nat) :
  paybackYear (buildScenarioResult g c m r s) = Some p ->
  JsText.truthy (Js.of_nat p) = true.
Proof.
  rewrite result_paybackYear. intro Hp.
  pose proof (latch_invariant g c m r s (Js.trip_count (years g))) as Hinv.
  rewrite Hp in Hinv. destruct Hinv as (Hrange & _).
  unfold JsText.truthy. destruct (Qeq_bool (Js.of_nat p) 0) eqn:E;
    [|reflexivity].
  apply Qeq_bool_eq in E. unfold Js.of_nat, Qeq in E. cbn in E. lia.
Qed.

(** X13. The payback texts.  On a result of the engine, the tile reads
    "Not reached" exactly when the payback year is absent, and reads
    "Year p" for a payback year [p]; the PDF summary line carries the same
    text after "Payback year: ". *)
Theorem payback_texts (g : GeneralInputs) (c : CostInputs)
    (m : MarketInputs) (r : RevenueInputs) (s : Scenario) :
  (App.paybackTile (buildScenarioResult g c m r s) = "Not reached"%string
   <-> paybackYear (buildScenarioResult g c m r s) = None)
  /\ (forall p,
        paybackYear (buildScenarioResult g c m r s) = Some p ->
        App.paybackTile (buildScenarioResult g c m r s)
        = ("Year " ++ JsText.String_of_nat p)%string)
  /\ Exports.pdfPaybackLine (buildScenarioResult g c m r s)
     = ("Payback year: "
        ++ App.paybackTile (buildScenarioResult g c m r s))%string.
Proof.
  unfold App.paybackTile, Exports.pdfPaybackLine.
  pose proof (payback_year_truthy g c m r s) as Htruthy.
  destruct (paybackYear (buildScenarioResult g c m r s)) as [p|].
  - rewrite (Htruthy p eq_refl). split; [|split].
    + split; discriminate.
    + intros p' Hp'. now injection Hp' as <-.
    + reflexivity.
  - split; [|split].
    + split; reflexivity.
    + discriminate.
    + reflexivity.
Qed.

(** ** [src/exports.ts] *)

Section CsvFacts.

Variable String_of_number : Q -> string.

(** X15. Exporting a result without rows saves an empty text: not even
    the header line is written, because the header is read off the first
    row.  The file is named after the scenario. *)
Theorem csv_of_no_rows_is_empty (result : ScenarioResult)
    (currency : string) :
  yearly result = [] ->
  Exports.csvLines String_of_number result currency = [""%string]
  /\ Exports.file_text (Exports.exportToCSV String_of_number result currency)
     = ""%string
  /\ Exports.file_name (Exports.exportToCSV String_of_number result currency)
     = (name (Types.scenario result) ++ "_scenario.csv")%string.
Proof.
  intro Hy. unfold Exports.exportToCSV, Exports.csvLines, Exports.buildRows.
  rewrite Hy. repeat split.
Qed.

(** X16. Exporting a result with rows writes the header of the eleven
    column names and then one line per year, in order; each line lists the
    eleven figures of its year in header order, so no cell is ever
    [undefined]. *)
Theorem csv_lines_of_rows (result : ScenarioResult) (currency : string) :
  yearly result <> [] ->
  Exports.csvLines String_of_number result currency
  = "Year,Price per unit,Units,Revenue,Variable cost,Gross profit,Gross margin %,Fixed cost,Net profit,Net margin %,Cumulative cash flow"%string
    :: map (fun y =>
              JsText.join ","%string (map String_of_number (csv_figures y)))
         (yearly result).
Proof.
  intro Hne. unfold Exports.csvLines, Exports.buildRows.
  destruct (yearly result) as [|y0 l]; [contradiction|].
  match goal with
  | |- context [Exports.Object_keys ?row] =>
      change (Exports.Object_keys row)
        with [ "Year"; "Price per unit"; "Units"; "Revenue";
               "Variable cost"; "Gross profit"; "Gross margin %";
               "Fixed cost"; "Net profit"; "Net margin %";
               "Cumulative cash flow" ]%string
  end.
  f_equal. rewrite map_map. apply map_ext. intro y. reflexivity.
Qed.

End CsvFacts.

(** ** The further properties on sample inputs *)

(** [nonpositive_horizon_is_empty] on a horizon of 0. *)
Lemma nonpositive_horizon_is_empty_witness :
  years ex_general_0 <= 0
  /\ yearly
       (buildScenarioResult ex_general_0 ex_cost ex_market ex_revenue
          ex_scenario) = []
  /\ totalNetProfit
       (buildScenarioResult ex_general_0 ex_cost ex_market ex_revenue
          ex_scenario) = 0.
Proof.
  assert (H0 : years ex_general_0 <= 0) by by_evaluation.
  destruct (nonpositive_horizon_is_empty ex_general_0 ex_cost ex_market
              ex_revenue ex_scenario H0) as (Hy & _ & Hn & _).
  split; [exact H0|]. split; [exact Hy | exact Hn].
Defined.

(** [later_market_years_do_not_reach_back] on the application's default
    market and the same market with another TAM for year 5: years 1 to 4
    are untouched. *)
Lemma later_market_years_do_not_reach_back_witness :
  nth_error
    (yearly
       (buildScenarioResult App.defaultGeneral App.defaultCost
          App.defaultMarket App.defaultRevenue ex_scenario)) 3
  = nth_error
      (yearly
         (buildScenarioResult App.defaultGeneral App.defaultCost
            ex_market_late App.defaultRevenue ex_scenario)) 3.
Proof.
  destruct (later_market_years_do_not_reach_back App.defaultGeneral
              App.defaultCost App.defaultMarket ex_market_late
              App.defaultRevenue ex_scenario 3) as (Hrows & _).
  - reflexivity.
  - reflexivity.
  - intros i Hi.
    do 4 (destruct i as [|i]; [split; reflexivity|]). lia.
  - apply Hrows. lia.
Defined.

(** [longer_horizon_extends_yearly] on the worked example with two and
    with three years. *)
Lemma longer_horizon_extends_yearly_witness :
  years ex_general <= years ex_general_3
  /\ yearly
       (buildScenarioResult ex_general ex_cost ex_market ex_revenue
          ex_scenario)
     = firstn
         (length
            (yearly
               (buildScenarioResult ex_general ex_cost ex_market ex_revenue
                  ex_scenario)))
         (yearly
            (buildScenarioResult ex_general_3 ex_cost ex_market ex_revenue
               ex_scenario)).
Proof.
  assert (Hle : years ex_general <= years ex_general_3) by by_evaluation.
  split; [exact Hle|].
  apply longer_horizon_extends_yearly; [reflexivity | exact Hle].
Defined.

(** [competitor_delta_sign] on the application's defaults: own price 99
    against a competitor price of 109. *)
Lemma competitor_delta_sign_witness :
  exists d,
    App.competitorDelta App.defaultRevenue App.defaultCompetitor = Some d
    /\ ~ 0 <= d
    /\ App.competitorSign d <> "+"%string.
Proof.
  destruct (App.competitorDelta App.defaultRevenue App.defaultCompetitor)
    as [d|] eqn:E; [|vm_compute in E; discriminate E].
  destruct (competitor_delta_sign App.defaultRevenue App.defaultCompetitor)
    as (_ & Hsome).
  destruct (Hsome d E) as (Hle & _ & Hsign).
  assert (Hprice : ~ competitorPrice App.defaultCompetitor
                     <= basePricePerUnit App.defaultRevenue).
  { apply Qlt_not_le. by_evaluation. }
  exists d. split; [reflexivity|]. split.
  - intro H. apply Hprice, Hle, H.
  - intro H. apply Hprice, Hsign, H.
Defined.

(** [current_result_of_selection] on the application's three scenarios:
    the initial selection "base", and an id no scenario carries, which
    falls back to the second scenario. *)
Lemma current_result_of_selection_witness :
  App.selectedScenario App.defaultScenarios "base" = Some ex_scenario
  /\ App.selectedScenario App.defaultScenarios "none" = Some ex_scenario
  /\ App.currentResult
       (App.scenarioResults App.defaultGeneral App.defaultCost
          App.defaultMarket App.defaultRevenue App.defaultScenarios)
       ex_scenario
     = Some
         (buildScenarioResult App.defaultGeneral App.defaultCost
            App.defaultMarket App.defaultRevenue ex_scenario).
Proof.
  assert (Hsel : App.selectedScenario App.defaultScenarios "base"
                 = Some ex_scenario) by reflexivity.
  split; [exact Hsel|]. split; [reflexivity|].
  destruct (current_result_of_selection App.defaultGeneral App.defaultCost
              App.defaultMarket App.defaultRevenue App.defaultScenarios
              "base") as (_ & Hcur).
  destruct (Hcur ex_scenario Hsel) as (_ & _ & res & Hres & _ & Hrun).
  rewrite Hres. f_equal. apply Hrun. left. reflexivity.
Defined.

(** [payback_texts] on the two-and-a-half-year run, payback in year 3. *)
Lemma payback_texts_witness :
  App.paybackTile
    (buildScenarioResult ex_general_half ex_cost_heavy ex_market_3 ex_revenue
       ex_scenario) = "Year 3"%string.
Proof.
  destruct (payback_texts ex_general_half ex_cost_heavy ex_market_3
              ex_revenue ex_scenario) as (_ & Hsome & _).
  rewrite (Hsome 3%nat); [reflexivity | vm_compute; reflexivity].
Defined.

(** [csv_of_no_rows_is_empty] on a horizon of 0. *)
Lemma csv_of_no_rows_is_empty_witness :
  Exports.file_text
    (Exports.exportToCSV ex_String_of_number
       (buildScenarioResult ex_general_0 ex_cost ex_market ex_revenue
          ex_scenario) "EUR") = ""%string.
Proof.
  destruct (csv_of_no_rows_is_empty ex_String_of_number
              (buildScenarioResult ex_general_0 ex_cost ex_market ex_revenue
                 ex_scenario) "EUR") as (_ & Htext & _);
    [vm_compute; reflexivity | exact Htext].
Defined.

(** [csv_lines_of_rows] on the worked example: a header and two lines. *)
Lemma csv_lines_of_rows_witness :
  length
    (Exports.csvLines ex_String_of_number
       (buildScenarioResult ex_general ex_cost ex_market ex_revenue
          ex_scenario) "EUR") = 3%nat
  /\ nth_error
       (Exports.csvLines ex_String_of_number
          (buildScenarioResult ex_general ex_cost ex_market ex_revenue
             ex_scenario) "EUR") 2
     = Some "2,10,500,5000,500,4500,90,0,4500,90,8000"%string.
Proof.
  rewrite (csv_lines_of_rows ex_String_of_number
             (buildScenarioResult ex_general ex_cost ex_market ex_revenue
                ex_scenario) "EUR")
    by (vm_compute; discriminate).
  split; vm_compute; reflexivity.
Defined.

(** ** The engine on doubles, run *)

(** C2 as stated fails on doubles.  In the worked example with an
    upfront cost and a fixed cost of 0.2, the last cumulative cash flow
    and [-(devCapex + launchMarketingCapex) + totalNetProfit] are two
    different doubles: the same net profits are added in two orders.  And
    with upfront costs that overflow, the net profits 0 and Infinity are
    both [>= 0] while the cumulative cash flow goes from -Infinity to
    NaN, which is not [>=] it. *)
Lemma closing_identity_fails_on_doubles :
  F64.column F64.cumulativeCashFlow
    (F64.run F64.ex_general F64.ex_cost_small F64.ex_market F64.ex_revenue
       F64.ex_scenario)
  = [4499.6000000000004; 8999.4000000000015]%float
  /\ option_map
       (fun res =>
          (- (F64.devCapex F64.ex_cost_small
              + F64.launchMarketingCapex F64.ex_cost_small)
           + F64.totalNetProfit res)%float)
       (F64.run F64.ex_general F64.ex_cost_small F64.ex_market
          F64.ex_revenue F64.ex_scenario)
     = Some 8999.3999999999996%float
  /\ (8999.4000000000015 =? 8999.3999999999996)%float = false
  /\ F64.column F64.netProfit
       (F64.run F64.ex_general F64.ex_cost_huge F64.ex_market_huge
          F64.ex_revenue_huge F64.ex_scenario)
     = [0%float; infinity]
  /\ F64.column F64.cumulativeCashFlow
       (F64.run F64.ex_general F64.ex_cost_huge F64.ex_market_huge
          F64.ex_revenue_huge F64.ex_scenario)
     = [neg_infinity; nan]
  /\ (neg_infinity <=? nan)%float = false.
Proof. vm_compute. repeat split. Qed.

(** C7 as stated fails on doubles.  In the worked example under the
    conservative scenario (adoption 0.6, price 0.95) year 1 has revenue
    2850, while [priceMultiplier * adoptionMultiplier] times the baseline
    revenue 5000 is 2849.9999999999995. *)
Lemma revenue_scaling_fails_on_doubles :
  F64.column F64.revenue
    (F64.run F64.ex_general F64.ex_cost F64.ex_market F64.ex_revenue
       F64.ex_conservative)
  = [2850; 2850]%float
  /\ F64.column
       (fun y0 =>
          (F64.priceMultiplier F64.ex_conservative
           * F64.adoptionMultiplier F64.ex_conservative
           * F64.revenue y0)%float)
       (F64.run F64.ex_general F64.ex_cost F64.ex_market F64.ex_revenue
          (F64.baseline_of F64.ex_conservative))
     = [2849.9999999999995; 2849.9999999999995]%float
  /\ (2850 =? 2849.9999999999995)%float = false.
Proof. vm_compute. repeat split. Qed.

(** C8 as stated fails on doubles.  In the three-year run whose
    per-year sequences have two entries, with a fixed cost of 100 and a
    price that overflows (1e308 times 10), year 3 has 0 units, but its
    revenue is Infinity times 0, which is NaN and not 0, and its net
    profit is NaN and not -100. *)
Lemma short_year_is_nan_on_overflow :
  F64.column F64.units
    (F64.run F64.ex_general_3 F64.ex_cost_opex F64.ex_market
       F64.ex_revenue_huge F64.ex_scenario_x10)
  = [500; 500; 0]%float
  /\ F64.column F64.revenue
       (F64.run F64.ex_general_3 F64.ex_cost_opex F64.ex_market
          F64.ex_revenue_huge F64.ex_scenario_x10)
     = [infinity; infinity; nan]
  /\ F64.column F64.netProfit
       (F64.run F64.ex_general_3 F64.ex_cost_opex F64.ex_market
          F64.ex_revenue_huge F64.ex_scenario_x10)
     = [infinity; infinity; nan]
  /\ (nan =? 0)%float = false
  /\ (nan =? - F64.annualFixedOpex F64.ex_cost_opex)%float = false.
Proof. vm_compute. repeat split. Qed.

(** The worked example of the specification runs on doubles as it does
    on rationals. *)
Example spec_worked_example_on_doubles :
  F64.column F64.cumulativeCashFlow
    (F64.run F64.ex_general F64.ex_cost F64.ex_market F64.ex_revenue
       F64.ex_scenario)
  = [3500; 8000]%float
  /\ option_map F64.paybackYear
       (F64.run F64.ex_general F64.ex_cost F64.ex_market F64.ex_revenue
          F64.ex_scenario)
     = Some (Some 1%float)
  /\ option_map F64.totalNetProfit
       (F64.run F64.ex_general F64.ex_cost F64.ex_market F64.ex_revenue
          F64.ex_scenario)
     = Some 9000%float.
Proof. vm_compute. repeat split. Qed.

(** ** The amended claims on sample inputs *)

(** [cumulative_cash_flow_running_sum] on the worked example. *)
Lemma cumulative_cash_flow_running_sum_witness :
  1 <= years ex_general
  /\ (exists y,
        nth_error
          (yearly
             (buildScenarioResult ex_general ex_cost ex_market ex_revenue
                ex_scenario))
          (length
             (yearly
                (buildScenarioResult ex_general ex_cost ex_market ex_revenue
                   ex_scenario)) - 1) = Some y
        /\ cumulativeCashFlow y
           = fold_left Qplus
               (map netProfit
                  (yearly
                     (buildScenarioResult ex_general ex_cost ex_market
                        ex_revenue ex_scenario)))
               (- (devCapex ex_cost + launchMarketingCapex ex_cost)))
  /\ (forall i j yi yj,
        (i <= j)%nat ->
        nth_error
          (yearly
             (buildScenarioResult ex_general ex_cost ex_market ex_revenue
                ex_scenario)) i = Some yi ->
        nth_error
          (yearly
             (buildScenarioResult ex_general ex_cost ex_market ex_revenue
                ex_scenario)) j = Some yj ->
        ~ cumulativeCashFlow yj < cumulativeCashFlow yi).
Proof.
  assert (H1 : 1 <= years ex_general) by by_evaluation.
  destruct (cumulative_cash_flow_running_sum ex_general ex_cost ex_market
              ex_revenue ex_scenario H1) as (Hlast & _ & Hmono).
  split; [exact H1|]. split; [exact Hlast|].
  apply Hmono. intros y Hin. vm_compute in Hin.
  destruct Hin as [<-|[<-|[]]]; by_evaluation.
Defined.

(** [scenario_scales_price_and_units] on year 1 of the aggressive
    scenario, and on the base scenario, whose multipliers are both 1. *)
Lemma scenario_scales_price_and_units_witness :
  (exists y y0,
      nth_error
        (yearly
           (buildScenarioResult ex_general ex_cost ex_market ex_revenue
              ex_aggressive)) 0 = Some y
      /\ nth_error
           (yearly
              (buildScenarioResult ex_general ex_cost ex_market ex_revenue
                 (baseline_of ex_aggressive))) 0 = Some y0
      /\ pricePerUnit y = (21 # 20) * pricePerUnit y0
      /\ units y = (7 # 5) * units y0
      /\ Types.revenue y
         = ((21 # 20) * pricePerUnit y0) * ((7 # 5) * units y0))
  /\ yearly
       (buildScenarioResult ex_general ex_cost ex_market ex_revenue
          ex_scenario)
     = yearly
         (buildScenarioResult ex_general ex_cost ex_market ex_revenue
            (baseline_of ex_scenario)).
Proof.
  split.
  - read_row (buildScenarioResult ex_general ex_cost ex_market ex_revenue
                ex_aggressive) 0%nat y E.
    destruct (scenario_scales_price_and_units ex_general ex_cost ex_market
                ex_revenue ex_aggressive) as (Hscale & _).
    destruct (Hscale 0%nat y E) as (y0 & E0 & Hp & Hu & Hr).
    exists y, y0. repeat split; assumption.
  - destruct (scenario_scales_price_and_units ex_general ex_cost ex_market
                ex_revenue ex_scenario) as (_ & Hsame).
    apply Hsame; reflexivity.
Defined.

(** [short_sequences_read_as_zero] on year 3 of the three-year run,
    whose per-year sequences have two entries. *)
Lemma short_sequences_read_as_zero_witness :
  Js.of_nat 2 < years ex_general_3
  /\ exists y,
       nth_error
         (yearly
            (buildScenarioResult ex_general_3 ex_cost ex_market ex_revenue
               ex_scenario)) 2 = Some y
       /\ ~ 0 < units y
       /\ ~ units y < 0
       /\ grossMarginPct y = 0.
Proof.
  assert (Hk : Js.of_nat 2 < years ex_general_3) by by_evaluation.
  destruct (short_sequences_read_as_zero ex_general_3 ex_cost ex_market
              ex_revenue ex_scenario 2 Hk) as (y & Hy & _ & _ & Hzero).
  split; [exact Hk|]. exists y. split; [exact Hy|].
  destruct Hzero as ((Hu1 & Hu2) & _ & _ & Hgm & _);
    [left; vm_compute; lia|].
  split; [exact Hu1|]. split; [exact Hu2 | exact Hgm].
Defined.

(** ** Further properties, in terms of comparisons only *)

(** X4. The payback year is absent exactly when no row of [yearly] has a
    cumulative cash flow that is [>= 0]. *)
Theorem payback_absent_iff_never_nonnegative (g : GeneralInputs)
    (c : CostInputs) (m : MarketInputs) (r : RevenueInputs) (s : Scenario) :
  paybackYear (buildScenarioResult g c m r s) = None
  <-> (forall k y,
          nth_error (yearly (buildScenarioResult g c m r s)) k = Some y ->
          ~ 0 <= cumulativeCashFlow y).
Proof.
  rewrite result_paybackYear, result_yearly.
  pose proof (latch_invariant g c m r s (Js.trip_count (years g))) as Hinv.
  split.
  - intros Hnone k y Hy. rewrite Hnone in Hinv.
    apply yearly_row in Hy. destruct Hy as (Hk & _ & ->).
    apply Qlt_not_le, Hinv. lia.
  - intro Hneg.
    destruct (v_paybackYear
                (loop_prefix g c m r s (Js.trip_count (years g))))
      as [p|]; [exfalso|reflexivity].
    destruct Hinv as (Hrange & Hge & _).
    destruct (yearly_defined g c m r s (Js.trip_count (years g)) (p - 1))
      as [y Hy]; [lia|].
    apply (Hneg _ _ Hy).
    apply yearly_row in Hy. destruct Hy as (_ & _ & ->).
    now replace (S (p - 1)) with p by lia.
Qed.

(** X8. When the annual fixed cost is not negative, no year's net margin
    percentage is above its gross margin percentage. *)
Theorem net_margin_not_above_gross (g : GeneralInputs) (c : CostInputs)
    (m : MarketInputs) (r : RevenueInputs) (s : Scenario)
    (k : nat) (y : YearlyResult) :
  0 <= annualFixedOpex c ->
  nth_error (yearly (buildScenarioResult g c m r s)) k = Some y ->
  ~ grossMarginPct y < netMarginPct y.
Proof.
  intros Hopex Hy. rewrite result_yearly in Hy. apply yearly_row in Hy.
  destruct Hy as (_ & Hspec & _).
  destruct Hspec as (_ & _ & _ & _ & _ & _ & Hgm & Hf & Hn & Hnm & _).
  apply Qle_not_lt. rewrite Hgm, Hnm.
  destruct (Js.gt (Types.revenue y) 0) eqn:E; [|apply Qle_refl].
  apply gt_iff in E.
  apply Qmult_le_compat_r; [|discriminate].
  apply Qmult_le_compat_r; [|apply Qinv_le_0_compat, Qlt_le_weak, E].
  rewrite Hn, Hf. lra.
Qed.

(** X9. With a positive contribution margin the break-even figure is
    present; it is not negative when the upfront cost is not negative,
    and it is 0 when nothing is paid upfront. *)
Theorem break_even_sign (g : GeneralInputs) (c : CostInputs)
    (m : MarketInputs) (r : RevenueInputs) (s : Scenario) :
  0 < basePricePerUnit r - unitVariableCost g c ->
  exists b,
    breakEvenUnits (buildScenarioResult g c m r s) = Some b
    /\ (0 <= devCapex c + launchMarketingCapex c -> ~ b < 0)
    /\ (devCapex c + launchMarketingCapex c == 0 -> b == 0).
Proof.
  intro Hpos. eexists. split.
  - cbn [buildScenarioResult breakEvenUnits].
    rewrite (proj2 (gt_iff _ _) Hpos). reflexivity.
  - unfold upfrontCapex. split.
    + intro Hup. apply Qle_not_lt.
      apply Qmult_le_0_compat; [exact Hup|].
      apply Qinv_le_0_compat, Qlt_le_weak, Hpos.
    + intro H0. unfold Qdiv. rewrite H0. ring.
Qed.

(** X14. The break-even tile reads "N/A" when the engine returns no
    break-even figure and also when it returns the figure 0, which it
    does when the contribution margin is positive and nothing is paid
    upfront; a figure above or below 0 is shown through [toFixed(0)]. *)
Theorem break_even_tile_reads_zero_as_absent (toFixed : Q -> nat -> string)
    (g : GeneralInputs) (c : CostInputs) (m : MarketInputs)
    (r : RevenueInputs) (s : Scenario) :
  (breakEvenUnits (buildScenarioResult g c m r s) = None ->
   App.breakEvenTile toFixed (buildScenarioResult g c m r s) = "N/A"%string)
  /\ (forall b,
        breakEvenUnits (buildScenarioResult g c m r s) = Some b ->
        (b == 0 ->
         App.breakEvenTile toFixed (buildScenarioResult g c m r s)
         = "N/A"%string)
        /\ (0 < b \/ b < 0 ->
            App.breakEvenTile toFixed (buildScenarioResult g c m r s)
            = toFixed b 0%nat))
  /\ (0 < basePricePerUnit r - unitVariableCost g c ->
      devCapex c + launchMarketingCapex c == 0 ->
      breakEvenUnits (buildScenarioResult g c m r s) <> None
      /\ App.breakEvenTile toFixed (buildScenarioResult g c m r s)
         = "N/A"%string).
Proof.
  unfold App.breakEvenTile, JsText.truthy. split; [|split].
  - now intros ->.
  - intros b ->. split; intro Hb.
    + now rewrite (Qeq_eq_bool _ _ Hb).
    + destruct (Qeq_bool b 0) eqn:E; [|reflexivity].
      apply Qeq_bool_eq in E. exfalso. rewrite E in Hb.
      destruct Hb as [Hb|Hb]; exact (Qlt_irrefl _ Hb).
  - intros Hpos Hup. cbn [buildScenarioResult breakEvenUnits].
    rewrite (proj2 (gt_iff _ _) Hpos). split; [discriminate|].
    assert (H0 : upfrontCapex c / (basePricePerUnit r - unitVariableCost g c)
                 == 0).
    { unfold upfrontCapex, Qdiv. rewrite Hup. ring. }
    now rewrite (Qeq_eq_bool _ _ H0).
Qed.

(** [payback_absent_iff_never_nonnegative] on the application's default
    inputs, whose base scenario never pays back within five years. *)
Lemma payback_absent_iff_never_nonnegative_witness :
  paybackYear
    (buildScenarioResult App.defaultGeneral App.defaultCost
       App.defaultMarket App.defaultRevenue ex_scenario) = None
  /\ forall k y,
       nth_error
         (yearly
            (buildScenarioResult App.defaultGeneral App.defaultCost
               App.defaultMarket App.defaultRevenue ex_scenario)) k = Some y ->
       ~ 0 <= cumulativeCashFlow y.
Proof.
  assert (Hnone : paybackYear
                    (buildScenarioResult App.defaultGeneral App.defaultCost
                       App.defaultMarket App.defaultRevenue ex_scenario)
                  = None) by (vm_compute; reflexivity).
  split; [exact Hnone|].
  exact (proj1 (payback_absent_iff_never_nonnegative App.defaultGeneral
                  App.defaultCost App.defaultMarket App.defaultRevenue
                  ex_scenario) Hnone).
Defined.

(** [net_margin_not_above_gross] on year 1 of the application's default
    inputs. *)
Lemma net_margin_not_above_gross_witness :
  0 <= annualFixedOpex App.defaultCost
  /\ exists y,
       nth_error
         (yearly
            (buildScenarioResult App.defaultGeneral App.defaultCost
               App.defaultMarket App.defaultRevenue ex_scenario)) 0 = Some y
       /\ ~ grossMarginPct y < netMarginPct y.
Proof.
  assert (Hopex : 0 <= annualFixedOpex App.defaultCost) by by_evaluation.
  read_row (buildScenarioResult App.defaultGeneral App.defaultCost
              App.defaultMarket App.defaultRevenue ex_scenario) 0%nat y E.
  split; [exact Hopex|]. exists y. split; [reflexivity|].
  exact (net_margin_not_above_gross App.defaultGeneral App.defaultCost
           App.defaultMarket App.defaultRevenue ex_scenario 0 y Hopex E).
Defined.

(** [break_even_sign] on the worked example: margin 9, upfront cost
    1000. *)
Lemma break_even_sign_witness :
  0 < basePricePerUnit ex_revenue - unitVariableCost ex_general ex_cost
  /\ 0 <= devCapex ex_cost + launchMarketingCapex ex_cost
  /\ exists b,
       breakEvenUnits
         (buildScenarioResult ex_general ex_cost ex_market ex_revenue
            ex_scenario) = Some b
       /\ ~ b < 0.
Proof.
  assert (Hpos : 0 < basePricePerUnit ex_revenue
                     - unitVariableCost ex_general ex_cost) by by_evaluation.
  assert (Hup : 0 <= devCapex ex_cost + launchMarketingCapex ex_cost)
    by by_evaluation.
  destruct (break_even_sign ex_general ex_cost ex_market ex_revenue
              ex_scenario Hpos) as (b & Hb & Hsign & _).
  split; [exact Hpos|]. split; [exact Hup|].
  exists b. split; [exact Hb | exact (Hsign Hup)].
Defined.

(** [break_even_tile_reads_zero_as_absent] on a run with nothing paid
    upfront and a margin of 9: the engine returns the figure 0 and the
    tile reads "N/A". *)
Lemma break_even_tile_reads_zero_as_absent_witness :
  breakEvenUnits
    (buildScenarioResult ex_general ex_cost_free ex_market ex_revenue
       ex_scenario) <> None
  /\ App.breakEvenTile (fun x _ => ex_String_of_number x)
       (buildScenarioResult ex_general ex_cost_free ex_market ex_revenue
          ex_scenario) = "N/A"%string.
Proof.
  destruct (break_even_tile_reads_zero_as_absent
              (fun x _ => ex_String_of_number x)
              ex_general ex_cost_free ex_market ex_revenue ex_scenario)
    as (_ & _ & Hzero).
  apply Hzero; by_evaluation.
Defined.
